(** * ROM header intelligence of Cat's HLE: a shallow embedding

    This development embeds the N64 ROM header parser of the launcher
    (format detection, byte-order normalisation, header field extraction,
    region / CIC / save-type classification) and proves the properties its
    specification states about it.

    Conventions.
    - A Python [bytes] value is a [list byte]; a Python [int] is a [Z].
    - A Python [str] is the list of its Unicode code points ([pystr]):
      the header decoder produces U+FFFD, which no 8-bit character holds.
    - A [dict] whose iteration order the code relies on is an association
      list in insertion order; a [dict] only looked up is a [gmap].
    - Methods of [N64RomInfo] mutate [self]; they live in a state and
      exception monad over the record of its attributes. *)

From Stdlib Require Import ZArith Strings.Byte String Ascii Lia.
From stdpp Require Import list strings gmap.

Local Open Scope Z_scope.

(** ** Python values *)

Abbreviation bytes := (list byte).
Abbreviation pystr := (list Z).

Definition byte_val (b : byte) : Z := Z.of_N (Byte.to_N b).

#[global] Instance byte_inhabited : Inhabited byte := populate x00.

(** The code points of an ASCII literal of the source. *)
Definition py (s : string) : pystr :=
  (λ a, Z.of_N (N_of_ascii a)) <$> list_ascii_of_string s.

(** [l[lo:hi]] for [0 <= lo <= hi]. *)
Definition slice {A} (lo hi : nat) (l : list A) : list A :=
  take (hi - lo) (drop lo l).

(** [range(0, stop, step)]. *)
Definition range_step (stop step : nat) : list nat :=
  (λ k, k * step)%nat <$> seq 0 ((stop + (step - 1)) / step)%nat.

(** [sum(data)] over a bytes object. *)
Definition sum_bytes (data : bytes) : Z :=
  foldr (λ b acc, byte_val b + acc) 0 data.

(** [str.isspace] of one code point: the Unicode white space characters. *)
Definition isspace (c : Z) : bool :=
  bool_decide (c ∈ [0x09; 0x0A; 0x0B; 0x0C; 0x0D; 0x1C; 0x1D; 0x1E; 0x1F; 0x20;
                    0x85; 0xA0; 0x1680; 0x2000; 0x2001; 0x2002; 0x2003; 0x2004;
                    0x2005; 0x2006; 0x2007; 0x2008; 0x2009; 0x200A; 0x2028;
                    0x2029; 0x202F; 0x205F; 0x3000]).

(** [str.isprintable] of one code point, on the code points that
    [bytes.decode("ascii", errors="replace")] produces (see [decode_range]):
    U+0020..U+007E are printable, the other ASCII characters are controls,
    and the replacement character U+FFFD is printable. *)
Definition isprintable (c : Z) : bool :=
  if c <? 0x80 then (0x20 <=? c) && (c <? 0x7F) else c =? 0xFFFD.

Fixpoint lstrip (s : pystr) : pystr :=
  match s with
  | c :: s' => if isspace c then lstrip s' else s
  | [] => []
  end.

(** [str.strip()] *)
Definition strip (s : pystr) : pystr := reverse (lstrip (reverse (lstrip s))).

(** [bytes.decode("ascii", errors="replace")]: one character per byte. *)
Definition decode_ascii_replace (data : bytes) : pystr :=
  (λ b, if byte_val b <? 0x80 then byte_val b else 0xFFFD) <$> data.

(** [chr(b)] for a byte. *)
Definition chr (b : byte) : pystr := [byte_val b].

Definition hex_digit_upper (d : Z) : Z :=
  if d <? 10 then 0x30 + d else 0x41 + (d - 10).

(** The digits of [n], most significant first, by repeated division;
    [fuel] bounds the number of digits. *)
Fixpoint hex_digits (fuel : nat) (n : Z) (acc : pystr) : pystr :=
  match fuel with
  | O => acc
  | S fuel' =>
      let acc' := hex_digit_upper (n mod 16) :: acc in
      if n / 16 =? 0 then acc' else hex_digits fuel' (n / 16) acc'
  end.

(** [f"{n:02X}"] for [n >= 0]: upper-case hexadecimal, zero-padded to
    two characters. *)
Definition format_02X (n : Z) : pystr :=
  let ds := hex_digits (S (Z.to_nat (Z.log2 n))) n [] in
  replicate (2 - length ds) 0x30 ++ ds.

(** ** Byte swapping *)

(** One iteration of the loop of [swap_bytes_n64]. *)
Definition swap_bytes_n64_body (data result : bytes) (i : nat) : bytes :=
  if decide (i + 4 ≤ length data)%nat then
    <[(i + 3)%nat := data !!! i]>
      (<[(i + 2)%nat := data !!! (i + 1)%nat]>
         (<[(i + 1)%nat := data !!! (i + 2)%nat]>
            (<[i := data !!! (i + 3)%nat]> result)))
  else take i result ++ drop i data.

(** Word swap: ABCD -> DCBA. *)
Definition swap_bytes_n64 (data : bytes) : bytes :=
  foldl (swap_bytes_n64_body data) (replicate (length data) x00)
        (range_step (length data) 4).

(** One iteration of the loop of [swap_bytes_v64]. *)
Definition swap_bytes_v64_body (data result : bytes) (i : nat) : bytes :=
  if decide (i + 2 ≤ length data)%nat then
    <[(i + 1)%nat := data !!! i]> (<[i := data !!! (i + 1)%nat]> result)
  else take i result ++ drop i data.

(** Byte swap: ABCD -> BADC. *)
Definition swap_bytes_v64 (data : bytes) : bytes :=
  foldl (swap_bytes_v64_body data) (replicate (length data) x00)
        (range_step (length data) 2).

(** The same transforms read group by group; [swap_bytes_n64_groups]
    and [swap_bytes_v64_groups] below relate them to the loops. *)
Fixpoint word_swap (data : bytes) : bytes :=
  match data with
  | a :: b :: c :: d :: rest => d :: c :: b :: a :: word_swap rest
  | tail => tail
  end.

Fixpoint halfword_swap (data : bytes) : bytes :=
  match data with
  | a :: b :: rest => b :: a :: halfword_swap rest
  | tail => tail
  end.

(** ** Format detection *)

Definition detect_rom_format (header_bytes : bytes)
  : option pystr * option (bytes → bytes) :=
  if decide (length header_bytes < 4)%nat then (None, None)
  else
    match byte_val <$> take 4 header_bytes with
    | [b0; b1; b2; b3] =>
        if (b0 =? 0x80) && (b1 =? 0x37) then (Some (py "z64"), None)
        else if (b0 =? 0x40) && (b3 =? 0x80) then
          (Some (py "n64"), Some swap_bytes_n64)
        else if (b0 =? 0x37) && (b1 =? 0x80) then
          (Some (py "v64"), Some swap_bytes_v64)
        else if b0 =? 0x80 then (Some (py "z64"), None)
        else (Some (py "unknown"), None)
    | _ => (None, None)
    end.

(** ** Lookup tables *)

Module Country.
Record info := Info {
  region : pystr; country : pystr; video : pystr; hz : Z; flag : pystr }.
End Country.

(** A two-letter flag emoji: the regional indicator symbols of its letters. *)
Definition flag_of (cc : string) : pystr :=
  (λ c, 0x1F1E6 + (c - 0x41)) <$> py cc.

(** Country codes from the ROM header (offset 0x3E). *)
Definition N64_COUNTRY_CODES : gmap Z Country.info :=
  list_to_map [
    (0x37, Country.Info (py "NTSC-B") (py "Brazil") (py "NTSC") 60
             (flag_of "BR"));
    (0x41, Country.Info (py "NTSC-J") (py "Japan/Asia") (py "NTSC") 60
             (flag_of "JP"));
    (0x44, Country.Info (py "PAL-G") (py "Germany") (py "PAL") 50
             (flag_of "DE"));
    (0x45, Country.Info (py "NTSC-U") (py "USA") (py "NTSC") 60
             (flag_of "US"));
    (0x46, Country.Info (py "PAL-F") (py "France") (py "PAL") 50
             (flag_of "FR"));
    (0x47, Country.Info (py "PAL-G") (py "Germany") (py "PAL") 50
             (flag_of "DE"));
    (0x48, Country.Info (py "PAL-NL") (py "Netherlands") (py "PAL") 50
             (flag_of "NL"));
    (0x49, Country.Info (py "PAL-I") (py "Italy") (py "PAL") 50
             (flag_of "IT"));
    (0x4A, Country.Info (py "NTSC-J") (py "Japan") (py "NTSC") 60
             (flag_of "JP"));
    (0x4B, Country.Info (py "NTSC-K") (py "Korea") (py "NTSC") 60
             (flag_of "KR"));
    (0x4C, Country.Info (py "PAL-X") (py "Gateway (PAL)") (py "PAL") 50
             [0x1F30D]);
    (0x4E, Country.Info (py "NTSC-C") (py "Canada") (py "NTSC") 60
             (flag_of "CA"));
    (0x50, Country.Info (py "PAL") (py "Europe") (py "PAL") 50
             (flag_of "EU"));
    (0x53, Country.Info (py "PAL-S") (py "Spain") (py "PAL") 50
             (flag_of "ES"));
    (0x55, Country.Info (py "PAL-A") (py "Australia") (py "PAL") 50
             (flag_of "AU"));
    (0x57, Country.Info (py "PAL-SC") (py "Scandinavia") (py "PAL") 50
             (flag_of "SE"));
    (0x58, Country.Info (py "PAL-X") (py "Europe (X)") (py "PAL") 50
             (flag_of "EU"));
    (0x59, Country.Info (py "PAL-X") (py "Europe (Y)") (py "PAL") 50
             (flag_of "EU"));
    (0x00, Country.Info (py "Demo") (py "Demo/Beta") (py "NTSC") 60
             [0x1F3AE]);
    (0x42, Country.Info (py "NTSC-B") (py "Brazil") (py "NTSC") 60
             (flag_of "BR"));
    (0x43, Country.Info (py "NTSC-C") (py "China") (py "NTSC") 60
             (flag_of "CN")) ].


Module Cic.
Record info := Info { name : pystr; region : pystr; games : option pystr }.
End Cic.

(** CIC chip identification from boot code checksums, in insertion order. *)
Definition CIC_CHIPS : list (Z * Cic.info) :=
  [ (0x6170A4A1, Cic.Info (py "CIC-NUS-6101") (py "NTSC-J")
                   (Some (py "Starfox 64 JP")));
    (0x90BB6CB5, Cic.Info (py "CIC-NUS-6102") (py "NTSC-U/PAL")
                   (Some (py "Most NTSC & PAL games")));
    (0x0B050EE0, Cic.Info (py "CIC-NUS-6103") (py "NTSC-U/PAL")
                   (Some (py "Banjo-Kazooie, Paper Mario")));
    (0x98BC2C86, Cic.Info (py "CIC-NUS-6105") (py "NTSC-U/PAL")
                   (Some (py "Zelda OoT, Majora's Mask")));
    (0xACC8580A, Cic.Info (py "CIC-NUS-6106") (py "NTSC-U/PAL")
                   (Some (py "F-Zero X, Yoshi's Story")));
    (0x009E9EA3, Cic.Info (py "CIC-NUS-7102") (py "PAL")
                   (Some (py "Lylat Wars PAL")));
    (0x3F, Cic.Info (py "CIC-6101") (py "NTSC-J") None);
    (0x3F01, Cic.Info (py "CIC-6102") (py "NTSC/PAL") None);
    (0x783F, Cic.Info (py "CIC-6103") (py "NTSC/PAL") None);
    (0x913F, Cic.Info (py "CIC-6105") (py "NTSC/PAL") None);
    (0x853F, Cic.Info (py "CIC-6106") (py "NTSC/PAL") None) ].

(** Save type detection from known game IDs, in insertion order. *)
Definition SAVE_TYPES : list (pystr * list pystr) :=
  [
    (py "EEPROM_4K", py <$>
      ["NSM"; "NDY"; "NWT"; "NWQ"; "NW2"; "N3D"; "NAD"; "NB5";
       "NBD"; "NBC"]);
    (py "EEPROM_16K", py <$>
      ["NZL"; "NMQ"; "NPN"; "NPW"; "NPY"; "NRE"; "NRZ"; "NSA";
       "NTE"; "NVY"]);
    (py "SRAM_256K", py <$>
      ["NER"; "NJF"; "NKJ"; "NMF"; "NRI"; "NS6"; "NTJ"; "NUB";
       "NYK"]);
    (py "FLASH_1M", py <$>
      ["NCC"; "NDA"; "NDO"; "NDP"; "NFZ"; "NGE"; "NJM"; "NKA";
       "NKI"; "NM8"; "NMV"; "NMW"; "NPD"; "NR7"; "NRH"; "NSI";
       "NW4"; "NZS"]);
    (py "CPAK", py <$>
      ["N64"; "NB7"; "NCH"; "NCT"; "NCU"; "NCW"; "NEA"; "NEP";
       "NFH"; "NFU"; "NGL"; "NGV"; "NHA"; "NHP"; "NIB"; "NIR";
       "NJG"; "NK2"; "NK4"; "NKT"]) ].


(** ** The attributes of [N64RomInfo] *)

Record N64RomInfo := mkN64RomInfo {
  path : string;
  format : option pystr;
  internal_name : pystr;
  cartridge_id : pystr;
  country_code : Z;
  region : pystr;
  country : pystr;
  video_mode : pystr;
  refresh_hz : Z;
  flag : pystr;
  crc1 : Z;
  crc2 : Z;
  cic_chip : pystr;
  save_type : pystr;
  rom_version : Z;
  manufacturer : pystr;
  entry_point : Z;
  size_bytes : Z;
  size_mbits : Z;
  md5 : pystr;
  valid : bool }.

(** Attribute assignment [self.x = v], one setter per attribute. *)
Definition set_format (v : option pystr) (self : N64RomInfo) : N64RomInfo :=
  mkN64RomInfo (path self) v (internal_name self) (cartridge_id self)
    (country_code self) (region self) (country self) (video_mode self)
    (refresh_hz self) (flag self) (crc1 self) (crc2 self) (cic_chip self)
    (save_type self) (rom_version self) (manufacturer self) (entry_point
    self) (size_bytes self) (size_mbits self) (md5 self) (valid self).

Definition set_internal_name (v : pystr) (self : N64RomInfo) : N64RomInfo :=
  mkN64RomInfo (path self) (format self) v (cartridge_id self)
    (country_code self) (region self) (country self) (video_mode self)
    (refresh_hz self) (flag self) (crc1 self) (crc2 self) (cic_chip self)
    (save_type self) (rom_version self) (manufacturer self) (entry_point
    self) (size_bytes self) (size_mbits self) (md5 self) (valid self).

Definition set_cartridge_id (v : pystr) (self : N64RomInfo) : N64RomInfo :=
  mkN64RomInfo (path self) (format self) (internal_name self) v
    (country_code self) (region self) (country self) (video_mode self)
    (refresh_hz self) (flag self) (crc1 self) (crc2 self) (cic_chip self)
    (save_type self) (rom_version self) (manufacturer self) (entry_point
    self) (size_bytes self) (size_mbits self) (md5 self) (valid self).

Definition set_country_code (v : Z) (self : N64RomInfo) : N64RomInfo :=
  mkN64RomInfo (path self) (format self) (internal_name self)
    (cartridge_id self) v (region self) (country self) (video_mode self)
    (refresh_hz self) (flag self) (crc1 self) (crc2 self) (cic_chip self)
    (save_type self) (rom_version self) (manufacturer self) (entry_point
    self) (size_bytes self) (size_mbits self) (md5 self) (valid self).

Definition set_region (v : pystr) (self : N64RomInfo) : N64RomInfo :=
  mkN64RomInfo (path self) (format self) (internal_name self)
    (cartridge_id self) (country_code self) v (country self) (video_mode
    self) (refresh_hz self) (flag self) (crc1 self) (crc2 self) (cic_chip
    self) (save_type self) (rom_version self) (manufacturer self)
    (entry_point self) (size_bytes self) (size_mbits self) (md5 self)
    (valid self).

Definition set_country (v : pystr) (self : N64RomInfo) : N64RomInfo :=
  mkN64RomInfo (path self) (format self) (internal_name self)
    (cartridge_id self) (country_code self) (region self) v (video_mode
    self) (refresh_hz self) (flag self) (crc1 self) (crc2 self) (cic_chip
    self) (save_type self) (rom_version self) (manufacturer self)
    (entry_point self) (size_bytes self) (size_mbits self) (md5 self)
    (valid self).

Definition set_video_mode (v : pystr) (self : N64RomInfo) : N64RomInfo :=
  mkN64RomInfo (path self) (format self) (internal_name self)
    (cartridge_id self) (country_code self) (region self) (country self) v
    (refresh_hz self) (flag self) (crc1 self) (crc2 self) (cic_chip self)
    (save_type self) (rom_version self) (manufacturer self) (entry_point
    self) (size_bytes self) (size_mbits self) (md5 self) (valid self).

Definition set_refresh_hz (v : Z) (self : N64RomInfo) : N64RomInfo :=
  mkN64RomInfo (path self) (format self) (internal_name self)
    (cartridge_id self) (country_code self) (region self) (country self)
    (video_mode self) v (flag self) (crc1 self) (crc2 self) (cic_chip
    self) (save_type self) (rom_version self) (manufacturer self)
    (entry_point self) (size_bytes self) (size_mbits self) (md5 self)
    (valid self).

Definition set_flag (v : pystr) (self : N64RomInfo) : N64RomInfo :=
  mkN64RomInfo (path self) (format self) (internal_name self)
    (cartridge_id self) (country_code self) (region self) (country self)
    (video_mode self) (refresh_hz self) v (crc1 self) (crc2 self)
    (cic_chip self) (save_type self) (rom_version self) (manufacturer
    self) (entry_point self) (size_bytes self) (size_mbits self) (md5
    self) (valid self).

Definition set_crc1 (v : Z) (self : N64RomInfo) : N64RomInfo :=
  mkN64RomInfo (path self) (format self) (internal_name self)
    (cartridge_id self) (country_code self) (region self) (country self)
    (video_mode self) (refresh_hz self) (flag self) v (crc2 self)
    (cic_chip self) (save_type self) (rom_version self) (manufacturer
    self) (entry_point self) (size_bytes self) (size_mbits self) (md5
    self) (valid self).

Definition set_crc2 (v : Z) (self : N64RomInfo) : N64RomInfo :=
  mkN64RomInfo (path self) (format self) (internal_name self)
    (cartridge_id self) (country_code self) (region self) (country self)
    (video_mode self) (refresh_hz self) (flag self) (crc1 self) v
    (cic_chip self) (save_type self) (rom_version self) (manufacturer
    self) (entry_point self) (size_bytes self) (size_mbits self) (md5
    self) (valid self).

Definition set_cic_chip (v : pystr) (self : N64RomInfo) : N64RomInfo :=
  mkN64RomInfo (path self) (format self) (internal_name self)
    (cartridge_id self) (country_code self) (region self) (country self)
    (video_mode self) (refresh_hz self) (flag self) (crc1 self) (crc2
    self) v (save_type self) (rom_version self) (manufacturer self)
    (entry_point self) (size_bytes self) (size_mbits self) (md5 self)
    (valid self).

Definition set_save_type (v : pystr) (self : N64RomInfo) : N64RomInfo :=
  mkN64RomInfo (path self) (format self) (internal_name self)
    (cartridge_id self) (country_code self) (region self) (country self)
    (video_mode self) (refresh_hz self) (flag self) (crc1 self) (crc2
    self) (cic_chip self) v (rom_version self) (manufacturer self)
    (entry_point self) (size_bytes self) (size_mbits self) (md5 self)
    (valid self).

Definition set_rom_version (v : Z) (self : N64RomInfo) : N64RomInfo :=
  mkN64RomInfo (path self) (format self) (internal_name self)
    (cartridge_id self) (country_code self) (region self) (country self)
    (video_mode self) (refresh_hz self) (flag self) (crc1 self) (crc2
    self) (cic_chip self) (save_type self) v (manufacturer self)
    (entry_point self) (size_bytes self) (size_mbits self) (md5 self)
    (valid self).

Definition set_manufacturer (v : pystr) (self : N64RomInfo) : N64RomInfo :=
  mkN64RomInfo (path self) (format self) (internal_name self)
    (cartridge_id self) (country_code self) (region self) (country self)
    (video_mode self) (refresh_hz self) (flag self) (crc1 self) (crc2
    self) (cic_chip self) (save_type self) (rom_version self) v
    (entry_point self) (size_bytes self) (size_mbits self) (md5 self)
    (valid self).

Definition set_entry_point (v : Z) (self : N64RomInfo) : N64RomInfo :=
  mkN64RomInfo (path self) (format self) (internal_name self)
    (cartridge_id self) (country_code self) (region self) (country self)
    (video_mode self) (refresh_hz self) (flag self) (crc1 self) (crc2
    self) (cic_chip self) (save_type self) (rom_version self)
    (manufacturer self) v (size_bytes self) (size_mbits self) (md5 self)
    (valid self).

Definition set_size_bytes (v : Z) (self : N64RomInfo) : N64RomInfo :=
  mkN64RomInfo (path self) (format self) (internal_name self)
    (cartridge_id self) (country_code self) (region self) (country self)
    (video_mode self) (refresh_hz self) (flag self) (crc1 self) (crc2
    self) (cic_chip self) (save_type self) (rom_version self)
    (manufacturer self) (entry_point self) v (size_mbits self) (md5 self)
    (valid self).

Definition set_size_mbits (v : Z) (self : N64RomInfo) : N64RomInfo :=
  mkN64RomInfo (path self) (format self) (internal_name self)
    (cartridge_id self) (country_code self) (region self) (country self)
    (video_mode self) (refresh_hz self) (flag self) (crc1 self) (crc2
    self) (cic_chip self) (save_type self) (rom_version self)
    (manufacturer self) (entry_point self) (size_bytes self) v (md5 self)
    (valid self).

Definition set_md5 (v : pystr) (self : N64RomInfo) : N64RomInfo :=
  mkN64RomInfo (path self) (format self) (internal_name self)
    (cartridge_id self) (country_code self) (region self) (country self)
    (video_mode self) (refresh_hz self) (flag self) (crc1 self) (crc2
    self) (cic_chip self) (save_type self) (rom_version self)
    (manufacturer self) (entry_point self) (size_bytes self) (size_mbits
    self) v (valid self).

Definition set_valid (v : bool) (self : N64RomInfo) : N64RomInfo :=
  mkN64RomInfo (path self) (format self) (internal_name self)
    (cartridge_id self) (country_code self) (region self) (country self)
    (video_mode self) (refresh_hz self) (flag self) (crc1 self) (crc2
    self) (cic_chip self) (save_type self) (rom_version self)
    (manufacturer self) (entry_point self) (size_bytes self) (size_mbits
    self) (md5 self) v.

(** ** State and exceptions *)

Inductive exn := IndexError | StructError | OSError.

(** A method body: it may update [self] and then either returns a value
    or raises; the updates made before a raise persist. *)
Definition M (A : Type) : Type := N64RomInfo → N64RomInfo * (exn + A).

#[global] Instance M_ret : MRet M := λ A a self, (self, inr a).
#[global] Instance M_bind : MBind M := λ A B k m self,
  match m self with
  | (self', inr a) => k a self'
  | (self', inl e) => (self', inl e)
  end.

Definition raise {A} (e : exn) : M A := λ self, (self, inl e).
Definition get_self : M N64RomInfo := λ self, (self, inr self).
Definition assign (set : N64RomInfo → N64RomInfo) : M unit :=
  λ self, (set self, inr tt).

(** [try: body except Exception as e: handler]. *)
Definition try_except (body : M unit) (handler : exn → M unit) : M unit :=
  λ self,
    match body self with
    | (self', inl e) => handler e self'
    | r => r
    end.

(** [data[i]] *)
Definition index (data : bytes) (i : nat) : M byte :=
  match data !! i with
  | Some b => mret b
  | None => raise IndexError
  end.

(** [struct.unpack(">I", data)[0]]: a big-endian unsigned 32-bit integer;
    [struct.error] unless [data] has exactly four bytes. *)
Definition int_from_bytes_big (data : bytes) : Z :=
  foldl (λ acc b, acc * 256 + byte_val b) 0 data.

Definition struct_unpack_I (data : bytes) : M Z :=
  if decide (length data = 4%nat) then mret (int_from_bytes_big data)
  else raise StructError.

(** ** Header parsing *)

(** Parse country code to region info. *)
Definition _parse_country : M unit :=
  self ← get_self;
  match N64_COUNTRY_CODES !! country_code self with
  | Some info =>
      assign (set_region (Country.region info));;
      assign (set_country (Country.country info));;
      assign (set_video_mode (Country.video info));;
      assign (set_refresh_hz (Country.hz info));;
      assign (set_flag (Country.flag info))
  | None =>
      assign (set_region (py "0x" ++ format_02X (country_code self)));;
      assign (set_country (py "Unknown"));;
      assign (set_video_mode (py "NTSC"));;
      assign (set_refresh_hz 60);;
      assign (set_flag [0x2753])
  end.

(** The test of one entry of [CIC_CHIPS] in the matching loop. *)
Definition cic_entry_matches (cic_checksum checksum : Z) : bool :=
  (0xFFFF <? checksum) && (Z.abs (cic_checksum - checksum) <? 0x10000).

(** The matching loop over [CIC_CHIPS.items()]: the name of the first
    entry that passes the test. *)
Fixpoint cic_table_match (items : list (Z * Cic.info)) (cic_checksum : Z)
  : option pystr :=
  match items with
  | [] => None
  | (checksum, info) :: rest =>
      if cic_entry_matches cic_checksum checksum then Some (Cic.name info)
      else cic_table_match rest cic_checksum
  end.

(** Detect CIC chip from boot code. *)
Definition _detect_cic (bootcode : bytes) : M unit :=
  if decide (length bootcode < 4032)%nat then
    assign (set_cic_chip (py "Unknown"))
  else
    let cic_checksum := Z.land (sum_bytes (take 4032 bootcode)) 0xFFFFFFFF in
    match cic_table_match CIC_CHIPS cic_checksum with
    | Some name => assign (set_cic_chip name)
    | None =>
        self ← get_self;
        let entry := entry_point self in
        if entry =? 0x80000400 then assign (set_cic_chip (py "CIC-6101"))
        else if entry =? 0x80000480 then assign (set_cic_chip (py "CIC-6103"))
        else if entry =? 0x800004C0 then assign (set_cic_chip (py "CIC-6106"))
        else assign (set_cic_chip (py "CIC-6102"))
    end.


(** [s.replace("_", " ")] *)
Definition replace_underscore (s : pystr) : pystr :=
  (λ c, if c =? 0x5F then 0x20 else c) <$> s.

(** The loop over [SAVE_TYPES.items()]. *)
Fixpoint save_type_scan (items : list (pystr * list pystr))
    (game_code cartridge_id : pystr) : option pystr :=
  match items with
  | [] => None
  | (save_type, codes) :: rest =>
      if bool_decide (game_code ∈ codes) || bool_decide (cartridge_id ∈ codes)
      then Some (replace_underscore save_type)
      else save_type_scan rest game_code cartridge_id
  end.

(** Detect save type from cartridge ID. *)
Definition _detect_save_type : M unit :=
  self ← get_self;
  let game_code := manufacturer self ++ cartridge_id self in
  match save_type_scan SAVE_TYPES game_code (cartridge_id self) with
  | Some save_type => assign (set_save_type save_type)
  | None =>
      if 256 <=? size_mbits self then assign (set_save_type (py "FlashRAM"))
      else if 64 <=? size_mbits self then assign (set_save_type (py "SRAM"))
      else assign (set_save_type (py "EEPROM"))
  end.

(** Parse N64 header bytes. *)
Definition _parse_header (header bootcode : bytes) : M unit :=
  v ← struct_unpack_I (slice 0x08 0x0C header);
  assign (set_entry_point v);;
  v ← struct_unpack_I (slice 0x10 0x14 header);
  assign (set_crc1 v);;
  v ← struct_unpack_I (slice 0x14 0x18 header);
  assign (set_crc2 v);;
  let raw_name := slice 0x20 0x34 header in
  assign (set_internal_name (strip (decode_ascii_replace raw_name)));;
  self ← get_self;
  assign (set_internal_name
            (strip ((λ c, if isprintable c then c else 0x20)
                      <$> internal_name self)));;
  b ← index header 0x3B;
  assign (set_manufacturer (if byte_val b =? 0 then py "N" else chr b));;
  let cart_bytes := slice 0x3C 0x3E header in
  assign (set_cartridge_id (decode_ascii_replace cart_bytes));;
  b ← index header 0x3E;
  assign (set_country_code (byte_val b));;
  _parse_country;;
  b ← index header 0x3F;
  assign (set_rom_version (byte_val b));;
  _detect_cic bootcode;;
  _detect_save_type.

(** ** The file system and the top-level parse *)

(** What the parser can observe of a file: the bytes a read from offset 0
    returns, the size [stat] reports, and whether opening it, reading its
    first 0x1000 bytes, or rewinding and reading the digest input raises
    [OSError]. The size is a datum of its own: a regular file has as many
    bytes as [stat] reports, a device such as /dev/zero reports 0 and
    still delivers bytes. *)
Record rom_file := RomFile {
  contents : bytes;
  st_size : N;
  open_raises : bool;
  header_read_raises : bool;
  digest_read_raises : bool }.

(** The file system as [Path.exists] and [Path.stat] see it. On the paths
    of [stat_raises], [stat] fails with an error that [Path.exists] does
    not turn into [False] (a name that is too long, a directory that may
    not be searched); on every other path [files] tells whether there is
    a file, and which. The file system does not change during a call. *)
Record file_system := FileSystem {
  files : gmap string rom_file;
  stat_raises : gset string }.

(** [fs !! p] is the file that [exists] and [stat] find at [p]: there is
    none when the path is absent and none when [stat] raises. *)
Global Instance file_system_lookup : Lookup string rom_file file_system :=
  λ p fs, if decide (p ∈ stat_raises fs) then None else files fs !! p.

(** A file system on which [stat] never raises is the map of its files. *)
Definition regular_files (m : gmap string rom_file) : file_system :=
  FileSystem m ∅.
#[warning="-uniform-inheritance"]
Coercion regular_files : gmap >-> file_system.

Definition check_io (raises : bool) : M unit :=
  if raises then raise OSError else mret tt.

(** The attribute defaults [__init__] assigns before it calls [_parse]. *)
Definition N64RomInfo_defaults (rom_path : string) : N64RomInfo :=
  {| path := rom_path; format := Some (py "unknown"); internal_name := [];
     cartridge_id := []; country_code := 0; region := py "Unknown";
     country := py "Unknown"; video_mode := py "NTSC"; refresh_hz := 60;
     flag := [0x1F3AE]; crc1 := 0; crc2 := 0; cic_chip := py "Unknown";
     save_type := py "Unknown"; rom_version := 0; manufacturer := py "N";
     entry_point := 0; size_bytes := 0; size_mbits := 0; md5 := [];
     valid := false |}.

Section Parser.

(** [hashlib.md5(data).hexdigest()], from the Python standard library. *)
Variable md5_hexdigest : bytes → pystr.

(** The body of the [try] block of [_parse]. *)
Definition _parse_try (f : rom_file) : M unit :=
  check_io (open_raises f);;
  check_io (header_read_raises f);;
  let raw_header := take 0x1000 (contents f) in
  if decide (length raw_header < 64)%nat then mret tt
  else
    let '(fmt, swap_func) := detect_rom_format raw_header in
    assign (set_format fmt);;
    let '(header, bootcode) :=
      match swap_func with
      | Some swap =>
          (swap (slice 0 64 raw_header), swap (slice 0x40 0x1000 raw_header))
      | None => (slice 0 64 raw_header, slice 0x40 0x1000 raw_header)
      end in
    _parse_header header bootcode;;
    check_io (digest_read_raises f);;
    self ← get_self;
    let md5_data :=
      take (Z.to_nat (Z.min (1024 * 1024) (size_bytes self))) (contents f) in
    assign (set_md5 (take 16 (md5_hexdigest md5_data)));;
    assign (set_valid true).

(** Parse ROM header. [exists] and [stat] run before the [try]: what
    [stat] raises there leaves [_parse], and [__init__], as an exception.
    [exists] is [stat] with "no such file" turned into [False], so the
    [stat] that follows it finds the same file. *)
Definition _parse (fs : file_system) : M unit :=
  self ← get_self;
  if decide (path self ∈ stat_raises fs) then raise OSError
  else
    match files fs !! path self with
    | None => mret tt
    | Some f =>
        assign (set_size_bytes (Z.of_N (st_size f)));;
        self ← get_self;
        assign (set_size_mbits ((size_bytes self * 8) `div` (1024 * 1024)));;
        try_except (_parse_try f) (λ e, mret tt)
    end.

(** [N64RomInfo(rom_path)]: [__init__] sets the defaults and parses. *)
Definition N64RomInfo_init (fs : file_system) (rom_path : string)
  : N64RomInfo * (exn + unit) :=
  _parse fs (N64RomInfo_defaults rom_path).

End Parser.

(** ** Vocabulary of the statements *)

(** The object after a method ran on [self], and how the method ended. *)
Definition exec {A} (m : M A) (self : N64RomInfo) : N64RomInfo := (m self).1.
Definition returns {A} (m : M A) (self : N64RomInfo) : Prop :=
  ∃ a, (m self).2 = inr a.

(** A regular file that opens and reads without error. *)
Definition readable (data : bytes) : rom_file :=
  RomFile data (N.of_nat (length data)) false false false.

(** The header attributes of a parsed ROM: internal name, CRCs, country
    code, entry point, manufacturer, cartridge id and version. *)
Definition header_fields (self : N64RomInfo)
  : pystr * Z * Z * Z * Z * pystr * pystr * Z :=
  (internal_name self, crc1 self, crc2 self, country_code self,
   entry_point self, manufacturer self, cartridge_id self, rom_version self).

(** A bucket matches when the game code or the cartridge id alone is in
    its code list. *)
Definition bucket_hit (game_code cartridge_id : pystr) (codes : list pystr)
  : Prop :=
  game_code ∈ codes ∨ cartridge_id ∈ codes.

(** The save-type matcher the specification compares [_detect_save_type]
    with: the same scan, testing only whether the game code is in the
    bucket. *)
Fixpoint save_type_scan_game_code_only (items : list (pystr * list pystr))
    (game_code : pystr) : option pystr :=
  match items with
  | [] => None
  | (save_type, codes) :: rest =>
      if bool_decide (game_code ∈ codes)
      then Some (replace_underscore save_type)
      else save_type_scan_game_code_only rest game_code
  end.

Definition detect_save_type_game_code_only : M unit :=
  self ← get_self;
  let game_code := manufacturer self ++ cartridge_id self in
  match save_type_scan_game_code_only SAVE_TYPES game_code with
  | Some save_type => assign (set_save_type save_type)
  | None =>
      if 256 <=? size_mbits self then assign (set_save_type (py "FlashRAM"))
      else if 64 <=? size_mbits self then assign (set_save_type (py "SRAM"))
      else assign (set_save_type (py "EEPROM"))
  end.

(** The header bytes [_parse] hands to [_parse_header]: the first 64 bytes
    of what was read, passed through the transform the detection selects. *)
Definition canonical_header (raw_header : bytes) : bytes :=
  match (detect_rom_format raw_header).2 with
  | Some swap => swap (slice 0 64 raw_header)
  | None => slice 0 64 raw_header
  end.

(** The boot code [_parse] hands to [_parse_header]: what was read from
    offset 0x40 on, passed through the same transform. *)
Definition canonical_bootcode (raw_header : bytes) : bytes :=
  match (detect_rom_format raw_header).2 with
  | Some swap => swap (slice 0x40 0x1000 raw_header)
  | None => slice 0x40 0x1000 raw_header
  end.


(** The [try] block of [_parse] from the assignment of the format on, as
    a function of what the detection returned; [parse_try_detected] shows
    it is that part of [_parse_try]. *)
Definition parse_detected (md5_hexdigest : bytes → pystr) (f : rom_file)
    (raw_header : bytes) (detected : option pystr * option (bytes → bytes))
  : M unit :=
  let '(fmt, swap_func) := detected in
  assign (set_format fmt);;
  let '(header, bootcode) :=
    match swap_func with
    | Some swap =>
        (swap (slice 0 64 raw_header), swap (slice 0x40 0x1000 raw_header))
    | None => (slice 0 64 raw_header, slice 0x40 0x1000 raw_header)
    end in
  _parse_header header bootcode;;
  check_io (digest_read_raises f);;
  self ← get_self;
  let md5_data :=
    take (Z.to_nat (Z.min (1024 * 1024) (size_bytes self))) (contents f) in
  assign (set_md5 (take 16 (md5_hexdigest md5_data)));;
  assign (set_valid true).

(** The first four bytes of a big-endian image. *)
Definition z64_magic : bytes := [x80; x37; x12; x40].

(** ** Display and renderer settings *)

(** The decimal digits of [n > 0], most significant first, by repeated
    division; [fuel] bounds the number of digits. *)
Fixpoint dec_digits (fuel : nat) (n : Z) (acc : pystr) : pystr :=
  match fuel with
  | O => acc
  | S fuel' =>
      let acc' := (0x30 + n mod 10) :: acc in
      if n / 10 =? 0 then acc' else dec_digits fuel' (n / 10) acc'
  end.

(** [str(n)], which is also [f"{n}"], for an [int]. *)
Definition str_int (n : Z) : pystr :=
  if n <? 0 then 0x2D :: dec_digits (S (Z.to_nat (Z.log2 (- n)))) (- n) []
  else dec_digits (S (Z.to_nat (Z.log2 n))) n [].

(** Get video mode info. *)
Definition get_video_info (self : N64RomInfo) : pystr :=
  video_mode self ++ py " " ++ str_int (refresh_hz self) ++ py "Hz".

(** The text [setup_renderer_config] writes to the core options file,
    for the two renderer variants. *)
Definition opt_line (key value : pystr) : pystr :=
  key ++ py " = " ++ [0x22] ++ value ++ [0x22; 0x0A].

Definition core_opts (use_rosetta : bool) (vi_mode vi_refresh : pystr)
  : pystr :=
  if use_rosetta then
    opt_line (py "mupen64plus-rdp-plugin") (py "angrylion")
    ++ opt_line (py "mupen64plus-rsp-plugin") (py "hle")
    ++ opt_line (py "mupen64plus-43screensize") (py "640x480")
    ++ opt_line (py "mupen64plus-aspect") (py "4:3")
    ++ opt_line (py "mupen64plus-cpucore") (py "dynamic_recompiler")
    ++ opt_line (py "mupen64plus-virefresh") vi_refresh
    ++ opt_line (py "mupen64plus-vimode") vi_mode
  else
    opt_line (py "mupen64plus-rdp-plugin") (py "gliden64")
    ++ opt_line (py "mupen64plus-rsp-plugin") (py "hle")
    ++ opt_line (py "mupen64plus-43screensize") (py "640x480")
    ++ opt_line (py "mupen64plus-aspect") (py "4:3")
    ++ opt_line (py "mupen64plus-cpucore") (py "dynamic_recompiler")
    ++ opt_line (py "mupen64plus-EnableHWLighting") (py "True")
    ++ opt_line (py "mupen64plus-virefresh") vi_refresh
    ++ opt_line (py "mupen64plus-vimode") vi_mode.

(** What [setup_renderer_config] depends on besides its arguments: the
    answer of [is_running_rosetta], and whether [mkdir] on the options
    directory and [write_text] on the options file raise. *)
Record renderer_env := RendererEnv {
  use_rosetta : bool;
  mkdir_raises : bool;
  write_text_raises : bool }.

(** Setup renderer with optional region-specific settings. The result is
    the exception [mkdir] raised, which nothing catches, or else what the
    call left in "Mupen64Plus-Next.opt" under [config_dir]: nothing when
    there is no [config_dir] or when [write_text] raised, which the bare
    [except] swallows. A path and an [N64RomInfo] object are truthy,
    [None] is not. *)
Definition setup_renderer_config (env : renderer_env)
    (config_dir : option string) (rom_info : option N64RomInfo)
  : exn + option (string * pystr) :=
  match config_dir with
  | None => inr None
  | Some dir =>
      if mkdir_raises env then inl OSError
      else
        let '(vi_mode, vi_refresh) :=
          match rom_info with
          | Some rom =>
              if bool_decide (video_mode rom = py "PAL")
              then (py "pal", py "50") else (py "ntsc", py "60")
          | None => (py "ntsc", py "60")
          end in
        let text := core_opts (use_rosetta env) vi_mode vi_refresh in
        if write_text_raises env then inr None else inr (Some (dir, text))
  end.

(** * Properties *)

(** ** Byte swapping: the loops and their group-wise reading *)

Lemma list_ind4 {A} (P : list A → Prop) :
  P [] → (∀ a, P [a]) → (∀ a b, P [a; b]) → (∀ a b c, P [a; b; c]) →
  (∀ a b c d l, P l → P (a :: b :: c :: d :: l)) → ∀ l, P l.
Proof.
  intros H0 H1 H2 H3 H4. fix IH 1.
  intros [|a [|b [|c [|d l]]]];
    [apply H0 | apply H1 | apply H2 | apply H3 | apply H4, IH].
Qed.

Lemma list_ind2 {A} (P : list A → Prop) :
  P [] → (∀ a, P [a]) → (∀ a b l, P l → P (a :: b :: l)) → ∀ l, P l.
Proof.
  intros H0 H1 H2. fix IH 1.
  intros [|a [|b l]]; [apply H0 | apply H1 | apply H2, IH].
Qed.

Lemma range_step_from (o step m : nat) :
  (λ k, o + k * step)%nat <$> seq 0 (S m)
  = o :: ((λ k, (o + step) + k * step)%nat <$> seq 0 m).
Proof.
  rewrite <- cons_seq, fmap_cons, <- fmap_S_seq, <- list_fmap_compose.
  f_equal; [lia|]. apply list_fmap_ext. intros _ k _. simpl. lia.
Qed.

(** The last iteration of either loop, on a trailing partial group:
    [result[i:] = data[i:]]. *)
Ltac loop_tail Hlen :=
  cbn; unfold swap_bytes_n64_body, swap_bytes_v64_body;
  rewrite decide_False by (rewrite length_app; simpl; lia);
  rewrite Nat.add_0_r, <- Hlen, take_app_length, Hlen, drop_app_length;
  reflexivity.

Lemma groups_succ (n step : nat) :
  (0 < step)%nat →
  ((step + n + (step - 1)) / step = S ((n + (step - 1)) / step))%nat.
Proof.
  intros Hs.
  replace (step + n + (step - 1))%nat
    with (1 * step + (n + (step - 1)))%nat by lia.
  rewrite Nat.div_add_l by lia. lia.
Qed.

(** The loop of [swap_bytes_n64], started at offset [length pre] with
    the groups before it already swapped into [sp]. *)
Lemma swap_bytes_n64_loop (rest : bytes) : ∀ pre sp : bytes,
  length sp = length pre →
  foldl (swap_bytes_n64_body (pre ++ rest))
        (sp ++ replicate (length rest) x00)
        ((λ k, length pre + k * 4)%nat <$> seq 0 ((length rest + 3) / 4))
  = sp ++ word_swap rest.
Proof.
  induction rest as [|a|a b|a b c|a b c d rest IH] using list_ind4;
    intros pre sp Hlen.
  - reflexivity.
  - loop_tail Hlen.
  - loop_tail Hlen.
  - loop_tail Hlen.
  - change (length (a :: b :: c :: d :: rest)) with (4 + length rest)%nat.
    rewrite (groups_succ (length rest) 4 ltac:(lia)
             : ((4 + length rest + 3) / 4 = S ((length rest + 3) / 4))%nat).
    rewrite range_step_from. cbn [foldl].
    specialize (IH (pre ++ [a; b; c; d]) (sp ++ [d; c; b; a])).
    rewrite !length_app, <- !app_assoc in IH. cbn [length app] in IH.
    cbn [word_swap Nat.add replicate]. rewrite <- IH by lia. f_equal.
    unfold swap_bytes_n64_body.
    rewrite decide_True by (rewrite length_app; simpl; lia).
    rewrite !lookup_total_app_r by lia.
    replace (length pre + 3 - length pre)%nat with 3%nat by lia.
    replace (length pre + 2 - length pre)%nat with 2%nat by lia.
    replace (length pre + 1 - length pre)%nat with 1%nat by lia.
    replace (length pre - length pre)%nat with 0%nat by lia.
    rewrite <- Hlen.
    replace (length sp) with (length sp + 0)%nat at 4 by lia.
    rewrite !insert_app_r. reflexivity.
Qed.

Lemma swap_bytes_v64_loop (rest : bytes) : ∀ pre sp : bytes,
  length sp = length pre →
  foldl (swap_bytes_v64_body (pre ++ rest))
        (sp ++ replicate (length rest) x00)
        ((λ k, length pre + k * 2)%nat <$> seq 0 ((length rest + 1) / 2))
  = sp ++ halfword_swap rest.
Proof.
  induction rest as [|a|a b rest IH] using list_ind2; intros pre sp Hlen.
  - reflexivity.
  - loop_tail Hlen.
  - change (length (a :: b :: rest)) with (2 + length rest)%nat.
    rewrite (groups_succ (length rest) 2 ltac:(lia)
             : ((2 + length rest + 1) / 2 = S ((length rest + 1) / 2))%nat).
    rewrite range_step_from. cbn [foldl].
    specialize (IH (pre ++ [a; b]) (sp ++ [b; a])).
    rewrite !length_app, <- !app_assoc in IH. cbn [length app] in IH.
    cbn [halfword_swap Nat.add replicate]. rewrite <- IH by lia. f_equal.
    unfold swap_bytes_v64_body.
    rewrite decide_True by (rewrite length_app; simpl; lia).
    rewrite !lookup_total_app_r by lia.
    replace (length pre + 1 - length pre)%nat with 1%nat by lia.
    replace (length pre - length pre)%nat with 0%nat by lia.
    rewrite <- Hlen.
    replace (length sp) with (length sp + 0)%nat at 2 by lia.
    rewrite !insert_app_r. reflexivity.
Qed.

Lemma swap_bytes_n64_groups (data : bytes) :
  swap_bytes_n64 data = word_swap data.
Proof. exact (swap_bytes_n64_loop data [] [] eq_refl). Qed.

Lemma swap_bytes_v64_groups (data : bytes) :
  swap_bytes_v64 data = halfword_swap data.
Proof. exact (swap_bytes_v64_loop data [] [] eq_refl). Qed.

(** ** Involution, length and prefixes of the swaps *)

Lemma word_swap_involutive (data : bytes) : word_swap (word_swap data) = data.
Proof.
  induction data as [|a|a b|a b c|a b c d rest IH] using list_ind4;
    simpl; congruence.
Qed.

Lemma halfword_swap_involutive (data : bytes) :
  halfword_swap (halfword_swap data) = data.
Proof.
  induction data as [|a|a b rest IH] using list_ind2; simpl; congruence.
Qed.

Lemma word_swap_length (data : bytes) : length (word_swap data) = length data.
Proof.
  induction data as [|a|a b|a b c|a b c d rest IH] using list_ind4;
    simpl; congruence.
Qed.

Lemma halfword_swap_length (data : bytes) :
  length (halfword_swap data) = length data.
Proof.
  induction data as [|a|a b rest IH] using list_ind2; simpl; congruence.
Qed.

(** A prefix of whole groups of the swapped buffer is the swapped prefix. *)
Lemma word_swap_take (k : nat) : ∀ data : bytes,
  take (4 * k) (word_swap data) = word_swap (take (4 * k) data).
Proof.
  induction k as [|k IH]; intros data; [reflexivity|].
  replace (4 * S k)%nat with (S (S (S (S (4 * k))))) by lia.
  destruct data as [|a [|b [|c [|d rest]]]]; try reflexivity.
  cbn [word_swap take]. by rewrite IH.
Qed.

Lemma halfword_swap_take (k : nat) : ∀ data : bytes,
  take (2 * k) (halfword_swap data) = halfword_swap (take (2 * k) data).
Proof.
  induction k as [|k IH]; intros data; [reflexivity|].
  replace (2 * S k)%nat with (S (S (2 * k))) by lia.
  destruct data as [|a [|b rest]]; try reflexivity.
  cbn [halfword_swap take]. by rewrite IH.
Qed.

Lemma word_swap_drop (k : nat) : ∀ data : bytes,
  drop (4 * k) (word_swap data) = word_swap (drop (4 * k) data).
Proof.
  induction k as [|k IH]; intros data; [reflexivity|].
  replace (4 * S k)%nat with (S (S (S (S (4 * k))))) by lia.
  destruct data as [|a [|b [|c [|d rest]]]];
    cbn [word_swap drop]; by rewrite ?drop_nil.
Qed.

Lemma halfword_swap_drop (k : nat) : ∀ data : bytes,
  drop (2 * k) (halfword_swap data) = halfword_swap (drop (2 * k) data).
Proof.
  induction k as [|k IH]; intros data; [reflexivity|].
  replace (2 * S k)%nat with (S (S (2 * k))) by lia.
  destruct data as [|a [|b rest]];
    cbn [halfword_swap drop]; by rewrite ?drop_nil.
Qed.

(** C7. Both byte-reordering transforms are involutions: on every buffer
    whose length is a multiple of 4, [swap_bytes_n64] applied twice gives
    the buffer back, and on every buffer whose length is a multiple of 2,
    [swap_bytes_v64] applied twice gives the buffer back. *)
Theorem swap_bytes_involutive :
  (∀ b : bytes, (length b mod 4 = 0)%nat →
     swap_bytes_n64 (swap_bytes_n64 b) = b) ∧
  (∀ b : bytes, (length b mod 2 = 0)%nat →
     swap_bytes_v64 (swap_bytes_v64 b) = b).
Proof.
  split; intros b _.
  - rewrite !swap_bytes_n64_groups. apply word_swap_involutive.
  - rewrite !swap_bytes_v64_groups. apply halfword_swap_involutive.
Qed.

Lemma swap_bytes_involutive_witness :
  let b := [x80; x37; x12; x40; x00; x00; x00; x0f] in
  ((length b mod 4 = 0)%nat ∧ swap_bytes_n64 (swap_bytes_n64 b) = b) ∧
  ((length b mod 2 = 0)%nat ∧ swap_bytes_v64 (swap_bytes_v64 b) = b).
Proof.
  intros b.
  split; (split; [reflexivity|]).
  - apply (proj1 swap_bytes_involutive b). reflexivity.
  - apply (proj2 swap_bytes_involutive b). reflexivity.
Defined.

(** ** Format detection *)

Lemma detect_rom_format_magic (b0 b1 b2 b3 : byte) (rest : bytes) :
  detect_rom_format (b0 :: b1 :: b2 :: b3 :: rest)
  = let '(v0, v1, v3) := (byte_val b0, byte_val b1, byte_val b3) in
    if (v0 =? 0x80) && (v1 =? 0x37) then (Some (py "z64"), None)
    else if (v0 =? 0x40) && (v3 =? 0x80) then
      (Some (py "n64"), Some swap_bytes_n64)
    else if (v0 =? 0x37) && (v1 =? 0x80) then
      (Some (py "v64"), Some swap_bytes_v64)
    else if v0 =? 0x80 then (Some (py "z64"), None)
    else (Some (py "unknown"), None).
Proof. reflexivity. Qed.

(** C9, as amended. On fewer than 4 bytes [detect_rom_format] returns
    [None] for the format, which is no format value at all and differs
    from the string ["unknown"], together with no transform; the format
    ["unknown"] is returned only on at least 4 bytes. *)
Theorem detect_rom_format_short (header_bytes : bytes) :
  (length header_bytes < 4)%nat →
  detect_rom_format header_bytes = (None, None) ∧
  (detect_rom_format header_bytes).1 ≠ Some (py "unknown").
Proof.
  intros Hlen. unfold detect_rom_format.
  rewrite decide_True by done. done.
Qed.

Lemma detect_rom_format_short_witness :
  (length [x80; x37; x12] < 4)%nat ∧
  detect_rom_format [x80; x37; x12] = (None, None) ∧
  (detect_rom_format [x80; x37; x12]).1 ≠ Some (py "unknown").
Proof.
  split; [simpl; lia|]. apply (detect_rom_format_short [x80; x37; x12]).
  simpl; lia.
Defined.

(** C9 as stated fails: three bytes are fewer than four, and the format
    returned for them is not the format value ["unknown"]. *)
Lemma detect_rom_format_short_not_unknown :
  ¬ (∀ header_bytes : bytes, (length header_bytes < 4)%nat →
       detect_rom_format header_bytes = (Some (py "unknown"), None)).
Proof.
  intros H. specialize (H [x80; x37; x12] ltac:(simpl; lia)). discriminate H.
Qed.

Lemma detect_rom_format_unknown_long (header_bytes : bytes) :
  (detect_rom_format header_bytes).1 = Some (py "unknown") →
  (4 ≤ length header_bytes)%nat.
Proof.
  unfold detect_rom_format.
  destruct (decide (length header_bytes < 4)%nat); [done|lia].
Qed.

(** ** Running method bodies *)

(** Unfold the monad operations of a method body applied to [self]. *)
Ltac run :=
  cbv [exec returns mbind M_bind mret M_ret get_self assign raise check_io
       try_except].

(** ** Region classification *)

Lemma format_02X_byte (code : Z) :
  0 ≤ code < 256 →
  format_02X code
  = [hex_digit_upper (code `div` 16); hex_digit_upper (code `mod` 16)].
Proof.
  intros Hc.
  assert (Hall : Forall (λ c, format_02X c
            = [hex_digit_upper (c `div` 16); hex_digit_upper (c `mod` 16)])
            (seqZ 0 256)).
  { apply (bool_decide_unpack _). vm_compute. reflexivity. }
  rewrite Forall_forall in Hall. apply Hall, elem_of_seqZ. lia.
Qed.

(** C6. Region classification is total on the byte values 0x00..0xFF: it
    returns for every code; a code in the country table gets the values of
    its entry, and a code not in the table gets video standard NTSC, 60 Hz,
    country "Unknown" and the region "0x" followed by the two upper-case
    hexadecimal digits of the code. *)
Theorem parse_country_total (code : Z) (self : N64RomInfo) :
  0 ≤ code < 256 →
  let self' := exec _parse_country (set_country_code code self) in
  returns _parse_country (set_country_code code self) ∧
  (∀ info, N64_COUNTRY_CODES !! code = Some info →
     region self' = Country.region info ∧
     country self' = Country.country info ∧
     video_mode self' = Country.video info ∧
     refresh_hz self' = Country.hz info) ∧
  (N64_COUNTRY_CODES !! code = None →
     video_mode self' = py "NTSC" ∧ refresh_hz self' = 60 ∧
     country self' = py "Unknown" ∧
     region self' = py "0x" ++ [hex_digit_upper (code `div` 16);
                                hex_digit_upper (code `mod` 16)]).
Proof.
  intros Hc self'. subst self'. unfold _parse_country. run.
  change (country_code (set_country_code code self)) with code.
  destruct (N64_COUNTRY_CODES !! code) as [info|] eqn:Hlook.
  - split; [by eexists|]. split; [|done].
    intros ? [= <-]. done.
  - split; [by eexists|]. split; [done|].
    intros _. rewrite <- format_02X_byte by done. done.
Qed.

Lemma parse_country_total_witness :
  0 ≤ 0xAB < 256 ∧
  N64_COUNTRY_CODES !! 0xAB = None ∧
  ∀ self,
    let self' := exec _parse_country (set_country_code 0xAB self) in
    video_mode self' = py "NTSC" ∧ refresh_hz self' = 60 ∧
    country self' = py "Unknown" ∧ region self' = py "0xAB".
Proof.
  split; [lia|]. split; [reflexivity|]. intros self.
  apply (parse_country_total 0xAB self); [lia | reflexivity].
Defined.

(** The codes without a table entry: all but the 21 listed ones. *)
Lemma country_code_unlisted (code : Z) :
  N64_COUNTRY_CODES !! code = None ↔
  code ∉ [0x37; 0x41; 0x44; 0x45; 0x46; 0x47; 0x48; 0x49; 0x4A; 0x4B; 0x4C;
          0x4E; 0x50; 0x53; 0x55; 0x57; 0x58; 0x59; 0x00; 0x42; 0x43].
Proof.
  unfold N64_COUNTRY_CODES. rewrite <- not_elem_of_list_to_map. done.
Qed.

Example parse_country_usa (self : N64RomInfo) :
  let self' := exec _parse_country (set_country_code 0x45 self) in
  region self' = py "NTSC-U" ∧ country self' = py "USA" ∧
  video_mode self' = py "NTSC" ∧ refresh_hz self' = 60.
Proof. done. Qed.

(** ** CIC classification *)

Lemma byte_val_range (b : byte) : 0 ≤ byte_val b < 256.
Proof.
  unfold byte_val. pose proof (Byte.to_N_bounded b). lia.
Qed.

Lemma sum_bytes_bound (data : bytes) :
  0 ≤ sum_bytes data ≤ 255 * Z.of_nat (length data).
Proof.
  induction data as [|b data IH]; simpl; [lia|].
  pose proof (byte_val_range b). lia.
Qed.

(** The checksum the code computes is the byte sum modulo 2^32. *)
Lemma cic_checksum_mod (data : bytes) :
  Z.land (sum_bytes data) 0xFFFFFFFF = sum_bytes data `mod` 2 ^ 32.
Proof. change 0xFFFFFFFF with (Z.ones 32). by rewrite Z.land_ones. Qed.

(** The matching loop finds a name exactly when some entry of the table
    passes the test, and the name is that of the first such entry. *)
Lemma cic_table_match_Some (items : list (Z * Cic.info)) (cs : Z) :
  is_Some (cic_table_match items cs) ↔
  ∃ constant info, (constant, info) ∈ items ∧
    0xFFFF < constant ∧ Z.abs (cs - constant) < 0x10000.
Proof.
  induction items as [|[k i] items IH]; simpl.
  - split; [by intros [? [=]]|]. intros (? & ? & []%elem_of_nil & _).
  - unfold cic_entry_matches at 1.
    destruct (Z.ltb_spec 0xFFFF k) as [Hk|Hk];
      [destruct (Z.ltb_spec (Z.abs (cs - k)) 0x10000) as [Hd|Hd]|]; simpl.
    + split; [|by eauto]. intros _. exists k, i. by rewrite elem_of_cons; auto.
    + rewrite IH. split.
      * intros (c & j & Hin & ?). exists c, j. by rewrite elem_of_cons; auto.
      * intros (c & j & [[= -> ->]|Hin]%elem_of_cons & ? & ?); [lia|eauto].
    + rewrite IH. split.
      * intros (c & j & Hin & ?). exists c, j. by rewrite elem_of_cons; auto.
      * intros (c & j & [[= -> ->]|Hin]%elem_of_cons & ? & ?); [lia|eauto].
Qed.


(** A sum of 4032 bytes is at most 4032 * 255 = 0xFB040, and every table
    constant above 0xFFFF is at least 0x9E9EA3: on real boot code the
    matching loop never finds an entry. *)
Lemma cic_table_match_bytes (bootcode : bytes) :
  cic_table_match CIC_CHIPS
    (Z.land (sum_bytes (take 4032 bootcode)) 0xFFFFFFFF) = None.
Proof.
  rewrite cic_checksum_mod.
  pose proof (sum_bytes_bound (take 4032 bootcode)) as Hs.
  rewrite length_take in Hs.
  rewrite Z.mod_small by lia.
  set (cs := sum_bytes (take 4032 bootcode)) in *.
  assert (Hcs : 0 ≤ cs ≤ 1028160) by lia. clearbody cs.
  apply eq_None_not_Some. rewrite cic_table_match_Some.
  intros (c & i & Hin & Hc & Hd). unfold CIC_CHIPS in Hin.
  repeat (apply elem_of_cons in Hin as [[= -> ->]|Hin]; [lia|]).
  by apply elem_of_nil in Hin.
Qed.

(** [_detect_cic] always returns and only assigns [cic_chip]; the chip
    depends on the boot code and on the entry point of the object only. *)
Lemma detect_cic_run (bootcode : bytes) (self : N64RomInfo) :
  ∃ chip, ∀ s, entry_point s = entry_point self →
    _detect_cic bootcode s = (set_cic_chip chip s, inr tt).
Proof.
  unfold _detect_cic. run.
  destruct (decide _); [by eexists|].
  destruct (cic_table_match _ _); [by eexists|].
  exists (if entry_point self =? 0x80000400 then py "CIC-6101"
          else if entry_point self =? 0x80000480 then py "CIC-6103"
          else if entry_point self =? 0x800004C0 then py "CIC-6106"
          else py "CIC-6102").
  intros s ->. by repeat case_match.
Qed.





(** C3. When the checksum of the boot code matches no entry of the CIC
    table, the chip follows from the entry point: 0x80000400 gives
    CIC-6101, 0x80000480 gives CIC-6103, 0x800004C0 gives CIC-6106 and
    every other value gives CIC-6102. (A checksum is computed only for
    boot code of at least 4032 bytes.) *)
Theorem detect_cic_entry_point_fallback (bootcode : bytes) (self : N64RomInfo) :
  (4032 ≤ length bootcode)%nat →
  cic_table_match CIC_CHIPS (sum_bytes (take 4032 bootcode) `mod` 2 ^ 32)
    = None →
  let chip := cic_chip (exec (_detect_cic bootcode) self) in
  (entry_point self = 0x80000400 → chip = py "CIC-6101") ∧
  (entry_point self = 0x80000480 → chip = py "CIC-6103") ∧
  (entry_point self = 0x800004C0 → chip = py "CIC-6106") ∧
  (entry_point self ∉ [0x80000400; 0x80000480; 0x800004C0] →
     chip = py "CIC-6102").
Proof.
  intros Hlen Hnone chip. subst chip. unfold _detect_cic.
  rewrite decide_False by lia. cbv zeta.
  rewrite cic_checksum_mod, Hnone. run.
  repeat split.
  - by intros ->.
  - by intros ->.
  - by intros ->.
  - intros Hother. rewrite !not_elem_of_cons in Hother.
    destruct Hother as (H1 & H2 & H3 & _).
    by rewrite (proj2 (Z.eqb_neq _ _) H1), (proj2 (Z.eqb_neq _ _) H2),
         (proj2 (Z.eqb_neq _ _) H3).
Qed.

Lemma detect_cic_entry_point_fallback_witness :
  let bootcode := replicate 4032 x00 in
  let self := set_entry_point 0x800004C0 (N64RomInfo_defaults "rom.z64") in
  (4032 ≤ length bootcode)%nat ∧
  cic_table_match CIC_CHIPS (sum_bytes (take 4032 bootcode) `mod` 2 ^ 32)
    = None ∧
  cic_chip (exec (_detect_cic bootcode) self) = py "CIC-6106".
Proof.
  intros bootcode self.
  assert (Hlen : (4032 ≤ length bootcode)%nat) by (vm_compute; lia).
  assert (Hnone : cic_table_match CIC_CHIPS
            (sum_bytes (take 4032 bootcode) `mod` 2 ^ 32) = None)
    by (vm_compute; reflexivity).
  split; [exact Hlen|]. split; [exact Hnone|].
  by apply (detect_cic_entry_point_fallback bootcode self Hlen Hnone).
Defined.

(** C4, as amended. For boot code of at least 4032 bytes whose checksum
    matches none of the known constants, the entry point 0x80000480
    classifies as CIC-6103 and every entry point other than 0x80000400,
    0x80000480 and 0x800004C0 classifies as CIC-6102. *)
Theorem detect_cic_6103_else_6102 (bootcode : bytes) (self : N64RomInfo) :
  (4032 ≤ length bootcode)%nat →
  cic_table_match CIC_CHIPS (sum_bytes (take 4032 bootcode) `mod` 2 ^ 32)
    = None →
  let chip := cic_chip (exec (_detect_cic bootcode) self) in
  (entry_point self = 0x80000480 → chip = py "CIC-6103") ∧
  (entry_point self ≠ 0x80000400 → entry_point self ≠ 0x80000480 →
   entry_point self ≠ 0x800004C0 → chip = py "CIC-6102").
Proof.
  intros Hlen Hnone chip. subst chip. unfold _detect_cic.
  rewrite decide_False by lia. cbv zeta.
  rewrite cic_checksum_mod, Hnone. run.
  split; [by intros ->|].
  intros H1%Z.eqb_neq H2%Z.eqb_neq H3%Z.eqb_neq. by rewrite H1, H2, H3.
Qed.

Lemma detect_cic_6103_else_6102_witness :
  let bootcode := replicate 4032 x00 in
  let self := set_entry_point 0x80246000 (N64RomInfo_defaults "rom.z64") in
  (4032 ≤ length bootcode)%nat ∧
  cic_table_match CIC_CHIPS (sum_bytes (take 4032 bootcode) `mod` 2 ^ 32)
    = None ∧
  entry_point self ≠ 0x80000400 ∧ entry_point self ≠ 0x80000480 ∧
  entry_point self ≠ 0x800004C0 ∧
  cic_chip (exec (_detect_cic bootcode) self) = py "CIC-6102".
Proof.
  intros bootcode self.
  assert (Hlen : (4032 ≤ length bootcode)%nat) by (vm_compute; lia).
  assert (Hnone : cic_table_match CIC_CHIPS
            (sum_bytes (take 4032 bootcode) `mod` 2 ^ 32) = None)
    by (vm_compute; reflexivity).
  split; [exact Hlen|]. split; [exact Hnone|].
  assert (H1 : entry_point self ≠ 0x80000400) by (simpl; lia).
  assert (H2 : entry_point self ≠ 0x80000480) by (simpl; lia).
  assert (H3 : entry_point self ≠ 0x800004C0) by (simpl; lia).
  repeat (split; [assumption|]).
  exact (proj2 (detect_cic_6103_else_6102 bootcode self Hlen Hnone) H1 H2 H3).
Defined.

(** C4 as stated fails: with 4032 zero bytes of boot code no constant
    matches, the entry point 0x80000400 is not 0x80000480, and the chip is
    CIC-6101, not CIC-6102. *)
Lemma detect_cic_other_entry_not_6102 :
  let bootcode := replicate 4032 x00 in
  let self := set_entry_point 0x80000400 (N64RomInfo_defaults "rom.z64") in
  (4032 ≤ length bootcode)%nat ∧
  cic_table_match CIC_CHIPS (sum_bytes (take 4032 bootcode) `mod` 2 ^ 32)
    = None ∧
  entry_point self ≠ 0x80000480 ∧
  cic_chip (exec (_detect_cic bootcode) self) = py "CIC-6101" ∧
  cic_chip (exec (_detect_cic bootcode) self) ≠ py "CIC-6102".
Proof.
  intros bootcode self.
  split; [vm_compute; lia|]. split; [vm_compute; reflexivity|].
  split; [simpl; lia|]. split; [vm_compute; reflexivity|].
  vm_compute. discriminate.
Qed.

(** ** Save-type classification *)

Lemma bucket_hit_test game_code cartridge_id codes :
  bool_decide (game_code ∈ codes) || bool_decide (cartridge_id ∈ codes) = true
  ↔ bucket_hit game_code cartridge_id codes.
Proof.
  unfold bucket_hit.
  rewrite orb_true_iff, !bool_decide_eq_true. done.
Qed.

(** The scan returns the name of the first bucket that matches. *)
Lemma save_type_scan_first items game_code cartridge_id i name codes :
  items !! i = Some (name, codes) →
  bucket_hit game_code cartridge_id codes →
  (∀ j name' codes', (j < i)%nat → items !! j = Some (name', codes') →
     ¬ bucket_hit game_code cartridge_id codes') →
  save_type_scan items game_code cartridge_id = Some (replace_underscore name).
Proof.
  revert i. induction items as [|[n c] items IH]; intros i Hi Hhit Hfirst.
  - by rewrite lookup_nil in Hi.
  - simpl. destruct i as [|i]; simpl in Hi.
    + injection Hi as [= -> ->].
      by rewrite (proj2 (bucket_hit_test _ _ _) Hhit).
    + destruct (bool_decide _ || bool_decide _) eqn:Htest.
      * apply bucket_hit_test in Htest.
        exfalso. by apply (Hfirst 0%nat n c ltac:(lia) eq_refl).
      * apply (IH i Hi Hhit). intros j n' c' Hlt Hj.
        apply (Hfirst (S j) n' c'); [lia|done].
Qed.

Lemma save_type_scan_none items game_code cartridge_id :
  (∀ name codes, (name, codes) ∈ items →
     ¬ bucket_hit game_code cartridge_id codes) →
  save_type_scan items game_code cartridge_id = None.
Proof.
  induction items as [|[n c] items IH]; intros Hno; [done|]. simpl.
  destruct (bool_decide _ || bool_decide _) eqn:Htest.
  - apply bucket_hit_test in Htest.
    exfalso. apply (Hno n c); [apply elem_of_cons; auto|done].
  - apply IH. intros n' c' Hin. apply (Hno n'), elem_of_cons. auto.
Qed.

(** [_detect_save_type] always returns and only assigns [save_type]; the
    save type depends on the manufacturer, the cartridge id and the size
    of the object only. *)
Lemma detect_save_type_run (self : N64RomInfo) :
  ∃ t, ∀ s,
    manufacturer s = manufacturer self →
    cartridge_id s = cartridge_id self →
    size_mbits s = size_mbits self →
    _detect_save_type s = (set_save_type t s, inr tt).
Proof.
  unfold _detect_save_type. run.
  exists (match save_type_scan SAVE_TYPES
                  (manufacturer self ++ cartridge_id self) (cartridge_id self)
          with
          | Some save_type => save_type
          | None =>
              if 256 <=? size_mbits self then py "FlashRAM"
              else if 64 <=? size_mbits self then py "SRAM"
              else py "EEPROM"
          end).
  intros s -> -> ->. by repeat case_match.
Qed.

(** C5. The buckets are scanned in the order EEPROM_4K, EEPROM_16K,
    SRAM_256K, FLASH_1M, CPAK; a bucket matches when the game code
    (manufacturer followed by cartridge id) or the cartridge id alone is in
    its code list, and the first matching bucket gives the save type (its
    name with the underscore shown as a space); when no bucket matches, the
    size in megabits decides: at least 256 gives FlashRAM, at least 64
    gives SRAM, anything smaller gives EEPROM. *)
Theorem detect_save_type_buckets (self : N64RomInfo) :
  let game_code := manufacturer self ++ cartridge_id self in
  let hit := bucket_hit game_code (cartridge_id self) in
  let result := save_type (exec _detect_save_type self) in
  SAVE_TYPES.*1 = py <$> ["EEPROM_4K"; "EEPROM_16K"; "SRAM_256K"; "FLASH_1M";
                          "CPAK"] ∧
  (∀ i name codes, SAVE_TYPES !! i = Some (name, codes) → hit codes →
     (∀ j name' codes', (j < i)%nat → SAVE_TYPES !! j = Some (name', codes') →
        ¬ hit codes') →
     result = replace_underscore name) ∧
  ((∀ name codes, (name, codes) ∈ SAVE_TYPES → ¬ hit codes) →
     (256 ≤ size_mbits self → result = py "FlashRAM") ∧
     (64 ≤ size_mbits self < 256 → result = py "SRAM") ∧
     (size_mbits self < 64 → result = py "EEPROM")).
Proof.
  intros game_code hit result. subst result hit. split; [done|].
  unfold _detect_save_type. run. fold game_code. split.
  - intros i name codes Hi Hhit Hfirst.
    by rewrite (save_type_scan_first _ _ _ i name codes Hi Hhit Hfirst).
  - intros Hno. rewrite (save_type_scan_none _ _ _ Hno).
    repeat split; intros Hsize.
    + by rewrite (proj2 (Z.leb_le _ _)) by lia.
    + rewrite (proj2 (Z.leb_gt _ _)) by lia.
      by rewrite (proj2 (Z.leb_le _ _)) by lia.
    + by rewrite !(proj2 (Z.leb_gt _ _)) by lia.
Qed.

Lemma detect_save_type_buckets_witness :
  let self :=
    set_size_mbits 64
      (set_cartridge_id (py "ZL") (N64RomInfo_defaults "rom.z64")) in
  SAVE_TYPES !! 1%nat
    = Some (py "EEPROM_16K",
            py <$> ["NZL"; "NMQ"; "NPN"; "NPW"; "NPY"; "NRE"; "NRZ"; "NSA";
                    "NTE"; "NVY"]) ∧
  save_type (exec _detect_save_type self) = py "EEPROM 16K".
Proof.
  intros self. split; [reflexivity|].
  apply (proj1 (proj2 (detect_save_type_buckets self)) 1%nat (py "EEPROM_16K")
           (py <$> ["NZL"; "NMQ"; "NPN"; "NPW"; "NPY"; "NRE"; "NRZ"; "NSA";
                    "NTE"; "NVY"])).
  - reflexivity.
  - left. apply (bool_decide_unpack _). vm_compute. reflexivity.
  - intros [|j] name' codes' Hlt Hj; [|lia].
    injection Hj as [= <- <-]. unfold bucket_hit.
    apply (bool_decide_unpack _). vm_compute. reflexivity.
Defined.

Example detect_save_type_size_fallback :
  let unlisted := set_cartridge_id (py "XX") (N64RomInfo_defaults "rom.z64") in
  save_type (exec _detect_save_type (set_size_mbits 256 unlisted))
    = py "FlashRAM" ∧
  save_type (exec _detect_save_type (set_size_mbits 64 unlisted)) = py "SRAM" ∧
  save_type (exec _detect_save_type (set_size_mbits 32 unlisted)) = py "EEPROM".
Proof. by vm_compute. Qed.

(** Every code of every bucket has three characters. *)
Lemma SAVE_TYPES_codes_length name codes code :
  (name, codes) ∈ SAVE_TYPES → code ∈ codes → length code = 3%nat.
Proof.
  intros Hb Hc.
  assert (Hall : Forall (λ b, Forall (λ c, length c = 3%nat) b.2) SAVE_TYPES).
  { apply (bool_decide_unpack _). vm_compute. reflexivity. }
  rewrite Forall_forall in Hall. specialize (Hall _ Hb). simpl in Hall.
  rewrite Forall_forall in Hall. by apply Hall.
Qed.

(** A cartridge id that is not three characters long is in no bucket, and
    then the scan is the scan on the game code alone. *)
Lemma save_type_scan_game_code items game_code cartridge_id :
  (∀ name codes, (name, codes) ∈ items → cartridge_id ∉ codes) →
  save_type_scan items game_code cartridge_id
  = save_type_scan_game_code_only items game_code.
Proof.
  induction items as [|[n c] items IH]; intros Hno; [done|]. simpl.
  rewrite (bool_decide_eq_false_2 (cartridge_id ∈ c))
    by (apply (Hno n), elem_of_cons; auto).
  rewrite orb_false_r, IH; [done|].
  intros n' c' Hin. apply (Hno n'), elem_of_cons. auto.
Qed.

Lemma detect_save_type_two_chars (self : N64RomInfo) :
  length (cartridge_id self) = 2%nat →
  _detect_save_type self = detect_save_type_game_code_only self.
Proof.
  intros Hlen. unfold _detect_save_type, detect_save_type_game_code_only. run.
  rewrite save_type_scan_game_code; [done|].
  intros name codes Hb Hc.
  pose proof (SAVE_TYPES_codes_length _ _ _ Hb Hc). lia.
Qed.

(** ** Header parsing *)

Lemma slice_length {A} (lo hi : nat) (l : list A) :
  (lo ≤ hi ≤ length l)%nat → length (slice lo hi l) = (hi - lo)%nat.
Proof. intros H. unfold slice. rewrite length_take, length_drop. lia. Qed.

Lemma struct_unpack_I_run (data : bytes) (self : N64RomInfo) :
  length data = 4%nat →
  struct_unpack_I data self = (self, inr (int_from_bytes_big data)).
Proof. intros H. unfold struct_unpack_I. by rewrite decide_True. Qed.

Lemma index_run (data : bytes) (i : nat) (self : N64RomInfo) :
  (i < length data)%nat → index data i self = (self, inr (data !!! i)).
Proof.
  intros H. unfold index.
  by rewrite (list_lookup_lookup_total_lt data i H).
Qed.

(** [_parse_country] always returns and only assigns the five region
    attributes. *)
Lemma parse_country_run (self : N64RomInfo) :
  ∃ r c v h f,
    _parse_country self
    = (set_flag f (set_refresh_hz h (set_video_mode v
         (set_country c (set_region r self)))), inr tt).
Proof.
  unfold _parse_country. run. case_match; by do 5 eexists.
Qed.

(** What [_parse_header] leaves on the object for a 64-byte header: it
    returns, the header attributes are functions of the header bytes, and
    the save type is the one [_detect_save_type] finds for them. *)
Lemma parse_header_run (header bootcode : bytes) (self : N64RomInfo) :
  length header = 64%nat →
  ∃ self',
    _parse_header header bootcode self = (self', inr tt) ∧
    entry_point self' = int_from_bytes_big (slice 0x08 0x0C header) ∧
    crc1 self' = int_from_bytes_big (slice 0x10 0x14 header) ∧
    crc2 self' = int_from_bytes_big (slice 0x14 0x18 header) ∧
    internal_name self' =
      strip ((λ c, if isprintable c then c else 0x20)
               <$> strip (decode_ascii_replace (slice 0x20 0x34 header))) ∧
    manufacturer self' =
      (if byte_val (header !!! 0x3B%nat) =? 0 then py "N"
       else chr (header !!! 0x3B%nat)) ∧
    cartridge_id self' = decode_ascii_replace (slice 0x3C 0x3E header) ∧
    country_code self' = byte_val (header !!! 0x3E%nat) ∧
    rom_version self' = byte_val (header !!! 0x3F%nat) ∧
    save_type self' = save_type (exec _detect_save_type self') ∧
    cic_chip self' = cic_chip (exec (_detect_cic bootcode) self') ∧
    (path self', format self', size_bytes self', size_mbits self',
     md5 self', valid self')
    = (path self, format self, size_bytes self, size_mbits self,
       md5 self, valid self).
Proof.
  intros Hlen. unfold _parse_header. run.
  rewrite !struct_unpack_I_run by (rewrite slice_length; lia).
  rewrite !index_run by lia.
  match goal with |- context [_parse_country ?s] =>
    destruct (parse_country_run s) as (r & c & v & h & f & ->) end.
  run. rewrite index_run by lia.
  match goal with |- context [_detect_cic bootcode ?s] =>
    destruct (detect_cic_run bootcode s) as (chip & Hcic);
    rewrite (Hcic s eq_refl) end.
  match goal with |- context [_detect_save_type ?s] =>
    destruct (detect_save_type_run s) as (t & Hsave);
    rewrite (Hsave s eq_refl eq_refl eq_refl) end.
  eexists. split; [reflexivity|].
  do 8 (split; [reflexivity|]).
  split; [|split; [|reflexivity]]; unfold exec.
  - match goal with |- context [_detect_save_type ?s'] =>
      rewrite (Hsave s' eq_refl eq_refl eq_refl) end.
    reflexivity.
  - match goal with |- context [_detect_cic bootcode ?s'] =>
      rewrite (Hcic s' eq_refl) end.
    reflexivity.
Qed.

(** C10. For every parsed header the save-type matcher agrees with the
    matcher that tests the game code only: the cartridge id is decoded
    from the two bytes at 0x3C..0x3D, one character per byte, so it has
    two characters, every code of every bucket has three, the cartridge id
    alone is therefore in no bucket, and both matchers do the same to the
    parsed object and give the save type the parse assigned. *)
Theorem save_type_matcher_game_code_only
    (header bootcode : bytes) (self : N64RomInfo) :
  length header = 64%nat →
  let parsed := exec (_parse_header header bootcode) self in
  returns (_parse_header header bootcode) self ∧
  length (cartridge_id parsed) = 2%nat ∧
  (∀ name codes code, (name, codes) ∈ SAVE_TYPES → code ∈ codes →
     length code = 3%nat) ∧
  (∀ name codes, (name, codes) ∈ SAVE_TYPES → cartridge_id parsed ∉ codes) ∧
  _detect_save_type parsed = detect_save_type_game_code_only parsed ∧
  save_type parsed
  = save_type (exec detect_save_type_game_code_only parsed).
Proof.
  intros Hlen parsed. subst parsed. unfold exec, returns.
  destruct (parse_header_run header bootcode self Hlen)
    as (self' & -> & _ & _ & _ & _ & _ & Hcart & _ & _ & Hsave & _).
  cbn [fst snd].
  assert (Hlen2 : length (cartridge_id self') = 2%nat).
  { rewrite Hcart. unfold decode_ascii_replace.
    rewrite length_fmap, slice_length; lia. }
  split; [by eexists|]. split; [exact Hlen2|].
  split; [exact SAVE_TYPES_codes_length|].
  split.
  - intros name codes Hb Hc.
    pose proof (SAVE_TYPES_codes_length _ _ _ Hb Hc). lia.
  - split; [by apply detect_save_type_two_chars|].
    rewrite Hsave at 1. unfold exec.
    by rewrite detect_save_type_two_chars.
Qed.

Lemma save_type_matcher_game_code_only_witness :
  let header := replicate 60 x00 ++ [x5a; x4c; x45; x00] in
  let parsed := exec (_parse_header header []) (N64RomInfo_defaults "rom.z64") in
  length header = 64%nat ∧
  cartridge_id parsed = py "ZL" ∧
  save_type parsed = py "EEPROM 16K" ∧
  save_type (exec detect_save_type_game_code_only parsed) = py "EEPROM 16K".
Proof.
  intros header parsed.
  assert (Hlen : length header = 64%nat) by reflexivity.
  split; [exact Hlen|].
  assert (Hsave : save_type parsed = py "EEPROM 16K") by (vm_compute; reflexivity).
  split; [vm_compute; reflexivity|]. split; [exact Hsave|].
  rewrite <- Hsave. symmetry.
  apply (save_type_matcher_game_code_only header []
           (N64RomInfo_defaults "rom.z64") Hlen).
Defined.

(** ** The top-level parse *)

Lemma swap_bytes_n64_length (data : bytes) :
  length (swap_bytes_n64 data) = length data.
Proof. rewrite swap_bytes_n64_groups. apply word_swap_length. Qed.

Lemma swap_bytes_v64_length (data : bytes) :
  length (swap_bytes_v64 data) = length data.
Proof. rewrite swap_bytes_v64_groups. apply halfword_swap_length. Qed.

(** The transform [detect_rom_format] selects is one of the two swaps. *)
Lemma detect_rom_format_swap (data : bytes) :
  (detect_rom_format data).2 = None ∨
  (detect_rom_format data).2 = Some swap_bytes_n64 ∨
  (detect_rom_format data).2 = Some swap_bytes_v64.
Proof.
  unfold detect_rom_format. destruct (decide _); [by left|].
  destruct (byte_val <$> take 4 data) as [|b0 [|b1 [|b2 [|b3 [|]]]]];
    try by left.
  repeat case_match; simpl; auto.
Qed.

(** The format depends on the first four bytes only. *)
Lemma detect_rom_format_take (n : nat) (data : bytes) :
  (4 ≤ n)%nat → detect_rom_format (take n data) = detect_rom_format data.
Proof.
  intros Hn. unfold detect_rom_format.
  rewrite take_take, (Nat.min_l 4 n) by lia.
  destruct (decide (length data < 4)%nat).
  - rewrite decide_True; [done|]. rewrite length_take. lia.
  - rewrite decide_False; [done|]. rewrite length_take. lia.
Qed.

Lemma canonical_header_length (raw_header : bytes) :
  (64 ≤ length raw_header)%nat → length (canonical_header raw_header) = 64%nat.
Proof.
  intros Hlen. unfold canonical_header.
  destruct (detect_rom_format_swap raw_header) as [-> | [-> | ->]];
    rewrite ?swap_bytes_n64_length, ?swap_bytes_v64_length, slice_length; lia.
Qed.

Section ParserProperties.

Variable md5_hexdigest : bytes → pystr.


(** The [try] block is the two I/O checks, the length test and
    [parse_detected] on the detection result. *)
Lemma parse_try_detected (f : rom_file) (self : N64RomInfo) :
  _parse_try md5_hexdigest f self =
    (check_io (open_raises f);;
     check_io (header_read_raises f);;
     let raw_header := take 0x1000 (contents f) in
     if decide (length raw_header < 64)%nat then mret tt
     else parse_detected md5_hexdigest f raw_header
            (detect_rom_format raw_header)) self.
Proof. unfold _parse_try, parse_detected. run. reflexivity. Qed.

(** A file that cannot be opened or read, or that has fewer than 64
    bytes, leaves the object as it was. *)
Lemma parse_try_unreadable (f : rom_file) (self : N64RomInfo) :
  open_raises f = true ∨ header_read_raises f = true ∨
    (length (contents f) < 64)%nat →
  (_parse_try md5_hexdigest f self).1 = self.
Proof.
  intros H. rewrite parse_try_detected. run.
  destruct (open_raises f); [reflexivity|].
  destruct (header_read_raises f); [reflexivity|].
  destruct H as [[=]|[[=]|Hlen]].
  rewrite decide_True by (rewrite length_take; lia). reflexivity.
Qed.

(** What [parse_detected] leaves on the object, for a detection result
    whose transform yields a 64-byte header. *)
Lemma parse_detected_run (f : rom_file) (raw_header : bytes)
    (fmt : option pystr) (swap_func : option (bytes → bytes))
    (self : N64RomInfo) :
  let header := match swap_func with
                | Some swap => swap (slice 0 64 raw_header)
                | None => slice 0 64 raw_header
                end in
  length header = 64%nat →
  ∃ self',
    (parse_detected md5_hexdigest f raw_header (fmt, swap_func) self).1
      = self' ∧
    (parse_detected md5_hexdigest f raw_header (fmt, swap_func) self).2
      = (if digest_read_raises f then inl OSError else inr tt) ∧
    valid self' = (if digest_read_raises f then valid self else true) ∧
    format self' = fmt ∧
    entry_point self' = int_from_bytes_big (slice 0x08 0x0C header) ∧
    crc1 self' = int_from_bytes_big (slice 0x10 0x14 header) ∧
    crc2 self' = int_from_bytes_big (slice 0x14 0x18 header) ∧
    internal_name self' =
      strip ((λ c, if isprintable c then c else 0x20)
               <$> strip (decode_ascii_replace (slice 0x20 0x34 header))) ∧
    manufacturer self' =
      (if byte_val (header !!! 0x3B%nat) =? 0 then py "N"
       else chr (header !!! 0x3B%nat)) ∧
    cartridge_id self' = decode_ascii_replace (slice 0x3C 0x3E header) ∧
    country_code self' = byte_val (header !!! 0x3E%nat) ∧
    rom_version self' = byte_val (header !!! 0x3F%nat) ∧
    (path self', size_bytes self', size_mbits self')
    = (path self, size_bytes self, size_mbits self).
Proof.
  intros header Hhdr. unfold parse_detected.
  generalize (slice 0x40 0x1000 raw_header). intros raw_bootcode.
  subst header. run.
  destruct swap_func as [swap|];
    (match goal with |- context [_parse_header ?h ?b ?s] =>
       destruct (parse_header_run h b s Hhdr)
         as (self' & Hrun & He & Hc1 & Hc2 & Hn & Hm & Hc & Hcc & Hv
             & _ & _ & Hf);
       rewrite Hrun end;
     injection Hf as Hp Hfmt Hsb Hsm Hmd Hva;
     cbn [format set_format] in Hfmt;
     change (valid (set_format fmt self)) with (valid self) in Hva;
     change (path (set_format fmt self)) with (path self) in Hp;
     change (size_bytes (set_format fmt self)) with (size_bytes self) in Hsb;
     change (size_mbits (set_format fmt self)) with (size_mbits self) in Hsm;
     rewrite <- Hp, <- Hsb, <- Hsm, <- Hva;
     destruct (digest_read_raises f); run;
     [ eexists; by repeat split
     | match goal with |- context [set_md5 ?m _] =>
         generalize m; intros digest end;
       eexists; split; [reflexivity|]; by repeat split ]).
Qed.

(** A file that opens and whose first 0x1000 bytes are read, with at
    least 64 bytes: the header is parsed, and the object is valid exactly
    when the digest read succeeds as well. *)
Lemma parse_try_header (f : rom_file) (self : N64RomInfo)
    (fmt : option pystr) (swap_func : option (bytes → bytes)) :
  open_raises f = false → header_read_raises f = false →
  (64 ≤ length (contents f))%nat →
  detect_rom_format (take 0x1000 (contents f)) = (fmt, swap_func) →
  ∃ header self',
    header = canonical_header (take 0x1000 (contents f)) ∧
    (_parse_try md5_hexdigest f self).1 = self' ∧
    (_parse_try md5_hexdigest f self).2
      = (if digest_read_raises f then inl OSError else inr tt) ∧
    valid self' = (if digest_read_raises f then valid self else true) ∧
    format self' = fmt ∧
    entry_point self' = int_from_bytes_big (slice 0x08 0x0C header) ∧
    crc1 self' = int_from_bytes_big (slice 0x10 0x14 header) ∧
    crc2 self' = int_from_bytes_big (slice 0x14 0x18 header) ∧
    internal_name self' =
      strip ((λ c, if isprintable c then c else 0x20)
               <$> strip (decode_ascii_replace (slice 0x20 0x34 header))) ∧
    manufacturer self' =
      (if byte_val (header !!! 0x3B%nat) =? 0 then py "N"
       else chr (header !!! 0x3B%nat)) ∧
    cartridge_id self' = decode_ascii_replace (slice 0x3C 0x3E header) ∧
    country_code self' = byte_val (header !!! 0x3E%nat) ∧
    rom_version self' = byte_val (header !!! 0x3F%nat) ∧
    (path self', size_bytes self', size_mbits self')
    = (path self, size_bytes self, size_mbits self).
Proof.
  intros Hopen Hread Hlen.
  rewrite parse_try_detected, Hopen, Hread.
  set (raw_header := take 0x1000 (contents f)).
  assert (Hraw64 : (64 ≤ length raw_header)%nat)
    by (subst raw_header; rewrite length_take; lia).
  clearbody raw_header. intros Hdet.
  run. rewrite decide_False by lia. rewrite Hdet.
  assert (Hcanon : canonical_header raw_header
                   = match swap_func with
                     | Some swap => swap (slice 0 64 raw_header)
                     | None => slice 0 64 raw_header
                     end)
    by (unfold canonical_header; by rewrite Hdet).
  pose proof (canonical_header_length raw_header Hraw64) as Hhdr.
  rewrite Hcanon in *. clear Hcanon Hdet.
  destruct (parse_detected_run f raw_header fmt swap_func self Hhdr)
    as (self' & H).
  eexists _, self'. split; [reflexivity|]. exact H.
Qed.

(** [_parse] on a path that does not exist changes nothing; on a path
    that exists it records the sizes and runs the [try] block, whose
    exception, if any, it swallows. *)
Lemma lookup_file_system (fs : file_system) (p : string) :
  fs !! p = if decide (p ∈ stat_raises fs) then None else files fs !! p.
Proof. reflexivity. Qed.

Lemma parse_run_missing fs (self : N64RomInfo) :
  fs !! path self = None → (_parse md5_hexdigest fs self).1 = self.
Proof.
  rewrite lookup_file_system. intros H. unfold _parse. run.
  destruct (decide _); [done|]. by rewrite H.
Qed.

Lemma parse_run_file fs (f : rom_file) (self : N64RomInfo) :
  fs !! path self = Some f →
  (_parse md5_hexdigest fs self).1
  = (_parse_try md5_hexdigest f
       (set_size_mbits
          ((Z.of_N (st_size f) * 8) `div` (1024 * 1024))
          (set_size_bytes (Z.of_N (st_size f)) self))).1.
Proof.
  rewrite lookup_file_system. intros H. unfold _parse. run.
  destruct (decide _); [done|]. rewrite H.
  change (size_bytes (set_size_bytes ?v self)) with v.
  by destruct (_parse_try _ _ _) as [s [e|[]]].
Qed.

End ParserProperties.

(** ** Canonical headers of the three layouts *)


Lemma magic_prefix (rom : bytes) :
  take 4 rom = z64_magic → ∃ rest, rom = x80 :: x37 :: x12 :: x40 :: rest.
Proof.
  destruct rom as [|a [|b [|c [|d rest]]]]; try done.
  intros [= -> -> -> ->]. by eexists.
Qed.

Lemma slice_0_64_take (data : bytes) :
  slice 0 64 (take 0x1000 data) = take 64 data.
Proof. unfold slice. rewrite drop_0, take_take. reflexivity. Qed.

(** A big-endian image is detected as z64 and its header is taken as is. *)
Lemma canonical_header_z64 (rom : bytes) :
  take 4 rom = z64_magic →
  detect_rom_format (take 0x1000 rom) = (Some (py "z64"), None) ∧
  canonical_header (take 0x1000 rom) = take 64 rom.
Proof.
  intros [rest ->]%magic_prefix.
  assert (Hdet : detect_rom_format
                   (take 0x1000 (x80 :: x37 :: x12 :: x40 :: rest))
                 = (Some (py "z64"), None)).
  { rewrite detect_rom_format_take by lia. reflexivity. }
  split; [exact Hdet|].
  unfold canonical_header. rewrite Hdet. apply slice_0_64_take.
Qed.

(** The halfword-swapped image is detected as v64, and swapping its first
    64 bytes gives the header of the big-endian image. *)
Lemma canonical_header_v64 (rom : bytes) :
  take 4 rom = z64_magic →
  detect_rom_format (take 0x1000 (swap_bytes_v64 rom))
  = (Some (py "v64"), Some swap_bytes_v64) ∧
  canonical_header (take 0x1000 (swap_bytes_v64 rom)) = take 64 rom.
Proof.
  intros [rest ->]%magic_prefix.
  assert (Hdet : detect_rom_format
            (take 0x1000 (swap_bytes_v64 (x80 :: x37 :: x12 :: x40 :: rest)))
          = (Some (py "v64"), Some swap_bytes_v64)).
  { rewrite detect_rom_format_take by lia.
    rewrite swap_bytes_v64_groups. reflexivity. }
  split; [exact Hdet|].
  unfold canonical_header. rewrite Hdet. cbn [snd].
  rewrite slice_0_64_take, !swap_bytes_v64_groups.
  rewrite (halfword_swap_take 32). apply halfword_swap_involutive.
Qed.

(** The word-swapped image is detected as n64, and swapping its first 64
    bytes gives the header of the big-endian image. *)
Lemma canonical_header_n64 (rom : bytes) :
  take 4 rom = z64_magic →
  detect_rom_format (take 0x1000 (swap_bytes_n64 rom))
  = (Some (py "n64"), Some swap_bytes_n64) ∧
  canonical_header (take 0x1000 (swap_bytes_n64 rom)) = take 64 rom.
Proof.
  intros [rest ->]%magic_prefix.
  assert (Hdet : detect_rom_format
            (take 0x1000 (swap_bytes_n64 (x80 :: x37 :: x12 :: x40 :: rest)))
          = (Some (py "n64"), Some swap_bytes_n64)).
  { rewrite detect_rom_format_take by lia.
    rewrite swap_bytes_n64_groups. reflexivity. }
  split; [exact Hdet|].
  unfold canonical_header. rewrite Hdet. cbn [snd].
  rewrite slice_0_64_take, !swap_bytes_n64_groups.
  rewrite (word_swap_take 16). apply word_swap_involutive.
Qed.

Section ParseRom.

Variable md5_hexdigest : bytes → pystr.

(** A readable file of at least 64 bytes parses to a valid object whose
    format is the detected one and whose header attributes are functions
    of the canonical header alone. *)
Lemma init_readable fs (rom_path : string) (data header : bytes)
    (fmt : option pystr) (swap_func : option (bytes → bytes)) :
  fs !! rom_path = Some (readable data) →
  (64 ≤ length data)%nat →
  detect_rom_format (take 0x1000 data) = (fmt, swap_func) →
  canonical_header (take 0x1000 data) = header →
  let rom := (N64RomInfo_init md5_hexdigest fs rom_path).1 in
  valid rom = true ∧ format rom = fmt ∧
  header_fields rom
  = (strip ((λ c, if isprintable c then c else 0x20)
              <$> strip (decode_ascii_replace (slice 0x20 0x34 header))),
     int_from_bytes_big (slice 0x10 0x14 header),
     int_from_bytes_big (slice 0x14 0x18 header),
     byte_val (header !!! 0x3E%nat),
     int_from_bytes_big (slice 0x08 0x0C header),
     (if byte_val (header !!! 0x3B%nat) =? 0 then py "N"
      else chr (header !!! 0x3B%nat)),
     decode_ascii_replace (slice 0x3C 0x3E header),
     byte_val (header !!! 0x3F%nat)).
Proof.
  intros Hfs Hlen Hdet Hcanon rom. subst rom. unfold N64RomInfo_init.
  remember (readable data) as f eqn:Hf.
  assert (Hopen : open_raises f = false) by (by subst f).
  assert (Hread : header_read_raises f = false) by (by subst f).
  assert (Hdigest : digest_read_raises f = false) by (by subst f).
  assert (Hdata : contents f = data) by (by subst f).
  clear Hf. rewrite <- Hdata in Hlen, Hdet, Hcanon. clear Hdata.
  rewrite (parse_run_file md5_hexdigest fs f) by exact Hfs.
  match goal with |- context [_parse_try _ _ ?s] =>
    destruct (parse_try_header md5_hexdigest f s fmt swap_func
                Hopen Hread Hlen Hdet)
      as (h & self' & Hh & Hrun & _ & Hv & Hf & He & Hc1 & Hc2 & Hn & Hm
          & Hc & Hcc & Hver & _) end.
  rewrite Hrun. rewrite Hcanon in Hh. subst h.
  rewrite Hdigest in Hv.
  unfold header_fields. rewrite Hv, Hf, He, Hc1, Hc2, Hn, Hm, Hc, Hcc, Hver.
  repeat split.
Qed.

(** C1. For every ROM of at least 64 bytes whose canonical bytes begin
    with the magic 0x80 0x37 0x12 0x40, the file as it is, its
    halfword-swapped (V64) re-encoding and its word-swapped (N64)
    re-encoding all parse to valid objects, detected as z64, v64 and n64,
    with the same internal name, CRCs, country code, entry point,
    manufacturer, cartridge id and version. *)
Theorem canonicalization_invariance fs (rom : bytes) (pz pv pn : string) :
  (64 ≤ length rom)%nat →
  take 4 rom = z64_magic →
  fs !! pz = Some (readable rom) →
  fs !! pv = Some (readable (swap_bytes_v64 rom)) →
  fs !! pn = Some (readable (swap_bytes_n64 rom)) →
  let z := (N64RomInfo_init md5_hexdigest fs pz).1 in
  let v := (N64RomInfo_init md5_hexdigest fs pv).1 in
  let n := (N64RomInfo_init md5_hexdigest fs pn).1 in
  (valid z = true ∧ valid v = true ∧ valid n = true) ∧
  (format z = Some (py "z64") ∧ format v = Some (py "v64") ∧
   format n = Some (py "n64")) ∧
  header_fields v = header_fields z ∧
  header_fields n = header_fields z.
Proof.
  intros Hlen Hmagic Hz Hv Hn z v n.
  destruct (canonical_header_z64 rom Hmagic) as [Hdz Hcz].
  destruct (canonical_header_v64 rom Hmagic) as [Hdv Hcv].
  destruct (canonical_header_n64 rom Hmagic) as [Hdn Hcn].
  destruct (init_readable fs pz rom _ _ _ Hz Hlen Hdz Hcz)
    as (Hvz & Hfz & Hhz).
  destruct (init_readable fs pv (swap_bytes_v64 rom) _ _ _ Hv
              ltac:(by rewrite swap_bytes_v64_length) Hdv Hcv)
    as (Hvv & Hfv & Hhv).
  destruct (init_readable fs pn (swap_bytes_n64 rom) _ _ _ Hn
              ltac:(by rewrite swap_bytes_n64_length) Hdn Hcn)
    as (Hvn & Hfn & Hhn).
  subst z v n. by rewrite Hhz, Hhv, Hhn.
Qed.

End ParseRom.

Lemma canonicalization_invariance_witness :
  let rom := z64_magic ++ replicate 4 x00 ++ [x80; x24; x60; x00]
             ++ replicate 50 x00 ++ [x45; x00] ++ replicate 6 x00 in
  let fs : gmap string rom_file :=
    {[ "mario.z64" := readable rom;
       "mario.v64" := readable (swap_bytes_v64 rom);
       "mario.n64" := readable (swap_bytes_n64 rom) ]} in
  let parse p := (N64RomInfo_init (λ _, []) fs p).1 in
  (64 ≤ length rom)%nat ∧ take 4 rom = z64_magic ∧
  entry_point (parse "mario.z64") = 0x80246000 ∧
  header_fields (parse "mario.v64") = header_fields (parse "mario.z64") ∧
  header_fields (parse "mario.n64") = header_fields (parse "mario.z64").
Proof.
  intros rom fs parse.
  assert (Hlen : (64 ≤ length rom)%nat) by (vm_compute; lia).
  assert (Hmagic : take 4 rom = z64_magic) by reflexivity.
  assert (Hz : fs !! "mario.z64" = Some (readable rom)) by reflexivity.
  assert (Hv : fs !! "mario.v64" = Some (readable (swap_bytes_v64 rom)))
    by reflexivity.
  assert (Hn : fs !! "mario.n64" = Some (readable (swap_bytes_n64 rom)))
    by reflexivity.
  split; [exact Hlen|]. split; [exact Hmagic|].
  split; [vm_compute; reflexivity|].
  apply (canonicalization_invariance (λ _, []) fs rom
           "mario.z64" "mario.v64" "mario.n64" Hlen Hmagic Hz Hv Hn).
Defined.

(** * Further properties of the parser *)

(** ** Byte swapping on arbitrary buffers *)

(** Both swaps keep the length of the buffer, and a trailing partial
    group (fewer than 4, respectively 2, bytes after whole groups) is
    passed through unchanged. *)
Theorem swap_bytes_trailing_group (body tail : bytes) :
  length (swap_bytes_n64 (body ++ tail)) = length (body ++ tail) ∧
  length (swap_bytes_v64 (body ++ tail)) = length (body ++ tail) ∧
  ((length body mod 4 = 0)%nat → (length tail < 4)%nat →
     swap_bytes_n64 (body ++ tail) = swap_bytes_n64 body ++ tail) ∧
  ((length body mod 2 = 0)%nat → (length tail < 2)%nat →
     swap_bytes_v64 (body ++ tail) = swap_bytes_v64 body ++ tail).
Proof.
  rewrite !swap_bytes_n64_groups, !swap_bytes_v64_groups.
  rewrite word_swap_length, halfword_swap_length.
  split; [done|]. split; [done|]. split.
  - intros Hbody Htail. revert Hbody.
    induction body as [|a|a b|a b c|a b c d body IH] using list_ind4;
      cbn [length]; try (by intros Hodd; vm_compute in Hodd); intros Hbody.
    + by destruct tail as [|? [|? [|? [|]]]]; [..|simpl in Htail; lia].
    + cbn [app word_swap]. rewrite IH; [done|].
      change (S (S (S (S (length body))))) with (4 + length body)%nat in Hbody.
      by rewrite <- Nat.Div0.add_mod_idemp_l, Nat.Div0.mod_same in Hbody.
  - intros Hbody Htail. revert Hbody.
    induction body as [|a|a b body IH] using list_ind2;
      cbn [length]; try (by intros Hodd; vm_compute in Hodd); intros Hbody.
    + by destruct tail as [|? [|]]; [..|simpl in Htail; lia].
    + cbn [app halfword_swap]. rewrite IH; [done|].
      change (S (S (length body))) with (2 + length body)%nat in Hbody.
      by rewrite <- Nat.Div0.add_mod_idemp_l, Nat.Div0.mod_same in Hbody.
Qed.

Lemma swap_bytes_trailing_group_witness :
  swap_bytes_n64 ([x01; x02; x03; x04] ++ [x05; x06; x07])
  = swap_bytes_n64 [x01; x02; x03; x04] ++ [x05; x06; x07] ∧
  swap_bytes_v64 ([x01; x02; x03; x04] ++ [x05])
  = swap_bytes_v64 [x01; x02; x03; x04] ++ [x05].
Proof.
  split.
  - apply (swap_bytes_trailing_group [x01; x02; x03; x04] [x05; x06; x07]);
      [reflexivity | simpl; lia].
  - apply (swap_bytes_trailing_group [x01; x02; x03; x04] [x05]);
      [reflexivity | simpl; lia].
Defined.

(** Both swaps undo themselves on a buffer of any length, whole groups or
    not. *)
Theorem swap_bytes_involutive_any_length (data : bytes) :
  swap_bytes_n64 (swap_bytes_n64 data) = data ∧
  swap_bytes_v64 (swap_bytes_v64 data) = data.
Proof.
  rewrite !swap_bytes_n64_groups, !swap_bytes_v64_groups.
  split; [apply word_swap_involutive | apply halfword_swap_involutive].
Qed.

Lemma word_halfword_swap_commute (data : bytes) :
  word_swap (halfword_swap data) = halfword_swap (word_swap data).
Proof.
  induction data as [|a|a b|a b c|a b c d rest IH] using list_ind4;
    try reflexivity.
  cbn [halfword_swap word_swap]. by rewrite IH.
Qed.

(** The two swaps commute: converting an image between the n64 and v64
    layouts gives the same bytes whichever swap is applied first. *)
Theorem swap_bytes_commute (data : bytes) :
  swap_bytes_n64 (swap_bytes_v64 data) = swap_bytes_v64 (swap_bytes_n64 data).
Proof.
  rewrite !swap_bytes_n64_groups, !swap_bytes_v64_groups.
  apply word_halfword_swap_commute.
Qed.

(** ** Format detection, byte by byte *)

(** Only the first four bytes of the input matter to the detection. *)
Theorem detect_rom_format_first_four (data : bytes) :
  detect_rom_format data = detect_rom_format (take 4 data).
Proof. symmetry. by apply detect_rom_format_take. Qed.

(** On at least four bytes the format is decided by the first byte, with
    the fourth (n64) or the second (v64): z64 exactly when the first byte
    is 0x80, so that the test of the second byte against 0x37 changes
    nothing; n64 exactly on 0x40 .. .. 0x80; v64 exactly on 0x37 0x80; and
    "unknown" in every other case. *)
Theorem detect_rom_format_by_bytes (b0 b1 b2 b3 : byte) (rest : bytes) :
  let fmt := (detect_rom_format (b0 :: b1 :: b2 :: b3 :: rest)).1 in
  (fmt = Some (py "z64") ↔ byte_val b0 = 0x80) ∧
  (fmt = Some (py "n64") ↔ byte_val b0 = 0x40 ∧ byte_val b3 = 0x80) ∧
  (fmt = Some (py "v64") ↔ byte_val b0 = 0x37 ∧ byte_val b1 = 0x80) ∧
  (fmt = Some (py "unknown") ↔
     byte_val b0 ≠ 0x80 ∧
     ¬ (byte_val b0 = 0x40 ∧ byte_val b3 = 0x80) ∧
     ¬ (byte_val b0 = 0x37 ∧ byte_val b1 = 0x80)).
Proof.
  intros fmt. subst fmt. rewrite detect_rom_format_magic. cbv zeta beta iota.
  destruct (Z.eqb_spec (byte_val b0) 0x80) as [H0|H0];
    destruct (Z.eqb_spec (byte_val b1) 0x37) as [H1|H1];
    destruct (Z.eqb_spec (byte_val b0) 0x40) as [H2|H2];
    destruct (Z.eqb_spec (byte_val b3) 0x80) as [H3|H3];
    destruct (Z.eqb_spec (byte_val b0) 0x37) as [H4|H4];
    destruct (Z.eqb_spec (byte_val b1) 0x80) as [H5|H5];
    cbn [andb fst]; try lia;
    (repeat split; try (intros [=]; fail); try (intros; lia); try done;
     try (intros (? & ? & ?); lia)).
Qed.

(** A transform is returned exactly with the formats n64 and v64, and it
    is the swap of that format; every other result carries no transform. *)
Theorem detect_rom_format_transform (data : bytes) :
  let r := detect_rom_format data in
  (r = (Some (py "n64"), Some swap_bytes_n64)) ∨
  (r = (Some (py "v64"), Some swap_bytes_v64)) ∨
  (r.2 = None ∧
   (r.1 = None ∨ r.1 = Some (py "z64") ∨ r.1 = Some (py "unknown"))).
Proof.
  intros r. subst r. unfold detect_rom_format.
  destruct (decide _); [by right; right; split; [|left]|].
  destruct (byte_val <$> take 4 data) as [|v0 [|v1 [|v2 [|v3 [|]]]]];
    try (by right; right; split; [|left]).
  repeat case_match; cbn [fst snd]; auto 10.
Qed.

(** ** Classification: what the tables can and cannot do *)

(** Boot code is a byte buffer, so the checksum of its first 4032 bytes is
    at most 4032 * 255 = 0xFB040, further than 0x10000 below every table
    constant above 0xFFFF. The table therefore never decides: on at least
    4032 bytes of boot code the chip is one of the four entry-point
    answers, it is never the name of a table entry, and it is the same for
    every boot code. *)
Theorem detect_cic_entry_point_only (bootcode : bytes) (self : N64RomInfo) :
  (4032 ≤ length bootcode)%nat →
  let chip := cic_chip (exec (_detect_cic bootcode) self) in
  let checksum := Z.land (sum_bytes (take 4032 bootcode)) 0xFFFFFFFF in
  0 ≤ checksum ≤ 0xFB040 ∧
  (∀ constant info, (constant, info) ∈ CIC_CHIPS →
     cic_entry_matches checksum constant = false) ∧
  chip = (if entry_point self =? 0x80000400 then py "CIC-6101"
          else if entry_point self =? 0x80000480 then py "CIC-6103"
          else if entry_point self =? 0x800004C0 then py "CIC-6106"
          else py "CIC-6102") ∧
  (∀ constant info, (constant, info) ∈ CIC_CHIPS → 0xFFFF < constant →
     chip ≠ Cic.name info) ∧
  (∀ bootcode' : bytes, (4032 ≤ length bootcode')%nat →
     cic_chip (exec (_detect_cic bootcode') self) = chip).
Proof.
  intros Hlen chip checksum.
  assert (Hchip : ∀ b : bytes, (4032 ≤ length b)%nat →
            cic_chip (exec (_detect_cic b) self)
            = (if entry_point self =? 0x80000400 then py "CIC-6101"
               else if entry_point self =? 0x80000480 then py "CIC-6103"
               else if entry_point self =? 0x800004C0 then py "CIC-6106"
               else py "CIC-6102")).
  { intros b Hb. unfold _detect_cic. rewrite decide_False by lia.
    cbv zeta. rewrite cic_table_match_bytes. run. by repeat case_match. }
  assert (Hsum : 0 ≤ checksum ≤ 0xFB040).
  { subst checksum. rewrite cic_checksum_mod.
    pose proof (sum_bytes_bound (take 4032 bootcode)) as Hs.
    rewrite length_take in Hs. rewrite Z.mod_small; lia. }
  split; [exact Hsum|]. split; [|split; [|split]].
  - intros k i Hin. unfold cic_entry_matches, CIC_CHIPS in *.
    repeat (apply elem_of_cons in Hin as [[= -> ->]|Hin];
            [apply andb_false_iff; rewrite Z.ltb_ge, Z.ltb_ge; lia|]).
    by apply elem_of_nil in Hin.
  - subst chip. by apply Hchip.
  - subst chip. rewrite Hchip by done. intros k i Hin Hk Heq.
    assert (Hnames : Forall (λ entry, 0xFFFF < entry.1 →
              Cic.name entry.2 ∉ py <$> ["CIC-6101"; "CIC-6103"; "CIC-6106";
                                         "CIC-6102"]) CIC_CHIPS)
      by (apply (bool_decide_unpack _); vm_compute; reflexivity).
    rewrite Forall_forall in Hnames. apply (Hnames (k, i) Hin Hk).
    cbn [snd]. rewrite <- Heq. clear.
    destruct (_ =? 0x80000400); [|destruct (_ =? 0x80000480);
      [|destruct (_ =? 0x800004C0)]];
      (apply (bool_decide_unpack _); vm_compute; reflexivity).
  - intros b Hb. subst chip. by rewrite !Hchip.
Qed.

Lemma detect_cic_entry_point_only_witness :
  let self := set_entry_point 0x80000400 (N64RomInfo_defaults "rom.z64") in
  (4032 ≤ length (replicate 4032 xff))%nat ∧
  cic_chip (exec (_detect_cic (replicate 4032 xff)) self) = py "CIC-6101" ∧
  cic_chip (exec (_detect_cic (replicate 4032 x00)) self) = py "CIC-6101".
Proof.
  intros self.
  assert (Hlen : (4032 ≤ length (replicate 4032 xff))%nat)
    by (rewrite length_replicate; lia).
  pose proof (detect_cic_entry_point_only (replicate 4032 xff) self Hlen)
    as (_ & _ & Hchip & _ & Hsame).
  split; [exact Hlen|]. split; [exact Hchip|].
  rewrite (Hsame (replicate 4032 x00)); [exact Hchip|].
  rewrite length_replicate. lia.
Defined.

(** Every entry of the country table pairs NTSC with 60 Hz or PAL with
    50 Hz, and so does the fallback. *)
Lemma N64_COUNTRY_CODES_timing :
  map_Forall (λ _ info,
      (Country.video info = py "NTSC" ∧ Country.hz info = 60) ∨
      (Country.video info = py "PAL" ∧ Country.hz info = 50))
    N64_COUNTRY_CODES.
Proof. apply (bool_decide_unpack _). vm_compute. reflexivity. Qed.

(** After region classification the video standard and the refresh rate
    agree, whatever the country code: NTSC with 60 Hz or PAL with 50 Hz. *)
Theorem parse_country_video_timing (self : N64RomInfo) :
  let self' := exec _parse_country self in
  (video_mode self' = py "NTSC" ∧ refresh_hz self' = 60) ∨
  (video_mode self' = py "PAL" ∧ refresh_hz self' = 50).
Proof.
  intros self'. subst self'. unfold _parse_country. run.
  destruct (N64_COUNTRY_CODES !! country_code self) as [info|] eqn:Hlook.
  - exact (N64_COUNTRY_CODES_timing _ _ Hlook).
  - by left.
Qed.

(** ** Save types and the game code *)

(** Every code of every bucket begins with the letter N, and looking a
    listed code up gives the bucket that lists it: no code is in two
    buckets. *)
Lemma SAVE_TYPES_codes :
  Forall (λ b, Forall (λ code,
      (∃ rest, code = 0x4E :: rest) ∧
      save_type_scan_game_code_only SAVE_TYPES code
      = Some (replace_underscore b.1)) b.2) SAVE_TYPES.
Proof.
  assert (H : Forall (λ b, Forall (λ code,
      head code = Some 0x4E ∧
      save_type_scan_game_code_only SAVE_TYPES code
      = Some (replace_underscore b.1)) b.2) SAVE_TYPES).
  { apply (bool_decide_unpack _). vm_compute. reflexivity. }
  eapply Forall_impl; [exact H|]. intros b Hb.
  eapply Forall_impl; [exact Hb|]. intros [|c code] [Hhead Hscan]; [done|].
  split; [|done]. injection Hhead as ->. by eexists.
Qed.

(** A game code listed in a bucket gets that bucket's save type, whatever
    the order of the buckets: the lists are disjoint. (The cartridge id
    has two characters, as after [_parse_header].) *)
Theorem detect_save_type_listed (self : N64RomInfo) name codes :
  length (cartridge_id self) = 2%nat →
  (name, codes) ∈ SAVE_TYPES →
  manufacturer self ++ cartridge_id self ∈ codes →
  save_type (exec _detect_save_type self) = replace_underscore name.
Proof.
  intros Hlen Hb Hc. unfold exec. rewrite detect_save_type_two_chars by done.
  unfold detect_save_type_game_code_only. run.
  pose proof SAVE_TYPES_codes as H. rewrite Forall_forall in H.
  specialize (H _ Hb). rewrite Forall_forall in H.
  destruct (H _ Hc) as [_ ->]. done.
Qed.

Lemma detect_save_type_listed_witness :
  let self :=
    set_cartridge_id (py "FZ") (N64RomInfo_defaults "fzero.z64") in
  length (cartridge_id self) = 2%nat ∧
  save_type (exec _detect_save_type self) = py "FLASH 1M".
Proof.
  intros self. split; [reflexivity|].
  apply (detect_save_type_listed self (py "FLASH_1M")
           (py <$> ["NCC"; "NDA"; "NDO"; "NDP"; "NFZ"; "NGE"; "NJM"; "NKA";
                    "NKI"; "NM8"; "NMV"; "NMW"; "NPD"; "NR7"; "NRH"; "NSI";
                    "NW4"; "NZS"])).
  - reflexivity.
  - apply (bool_decide_unpack _). vm_compute. reflexivity.
  - apply (bool_decide_unpack _). vm_compute. reflexivity.
Defined.

(** Every listed code begins with N: a cartridge whose manufacturer
    character is not N matches no bucket, and its save type follows from
    its size alone. *)
Theorem detect_save_type_other_manufacturer (self : N64RomInfo) (m : Z) :
  manufacturer self = [m] → m ≠ 0x4E →
  length (cartridge_id self) = 2%nat →
  save_type (exec _detect_save_type self)
  = (if 256 <=? size_mbits self then py "FlashRAM"
     else if 64 <=? size_mbits self then py "SRAM" else py "EEPROM").
Proof.
  intros Hm Hne Hlen. unfold exec. rewrite detect_save_type_two_chars by done.
  unfold detect_save_type_game_code_only. run. rewrite Hm.
  assert (Hnone : save_type_scan_game_code_only SAVE_TYPES
                    ([m] ++ cartridge_id self) = None).
  { pose proof SAVE_TYPES_codes as H.
    induction H as [|[n c] items Hc _ IH]; [done|]. simpl.
    rewrite bool_decide_eq_false_2; [exact IH|].
    intros Hin. rewrite Forall_forall in Hc.
    destruct (Hc _ Hin) as [[rest [= ? _]] _]. done. }
  rewrite Hnone. by repeat case_match.
Qed.

Lemma detect_save_type_other_manufacturer_witness :
  let self :=
    set_size_mbits 256
      (set_manufacturer (py "C")
         (set_cartridge_id (py "ZL") (N64RomInfo_defaults "rom.z64"))) in
  save_type (exec _detect_save_type self) = py "FlashRAM".
Proof.
  intros self.
  apply (detect_save_type_other_manufacturer self 0x43);
    [reflexivity | lia | reflexivity].
Defined.

(** ** What [_parse_header] needs and what it leaves *)

Lemma slice_length_min {A} (lo hi : nat) (l : list A) :
  length (slice lo hi l) = ((hi - lo) `min` (length l - lo))%nat.
Proof. unfold slice. by rewrite length_take, length_drop. Qed.

Lemma struct_unpack_I_fail (data : bytes) (self : N64RomInfo) :
  length data ≠ 4%nat → struct_unpack_I data self = (self, inl StructError).
Proof. intros H. unfold struct_unpack_I. by rewrite decide_False. Qed.

Lemma index_fail (data : bytes) (i : nat) (self : N64RomInfo) :
  (length data ≤ i)%nat → index data i self = (self, inl IndexError).
Proof. intros H. unfold index. by rewrite lookup_ge_None_2. Qed.

(** One step of [_parse_header] on a header whose length is known. *)
Ltac header_step :=
  first
    [ rewrite struct_unpack_I_run by (rewrite slice_length_min; lia)
    | rewrite struct_unpack_I_fail by (rewrite slice_length_min; lia)
    | rewrite index_run by lia
    | rewrite index_fail by lia
    | match goal with |- context [_parse_country ?s] =>
        destruct (parse_country_run s) as (? & ? & ? & ? & ? & ->) end
    | match goal with |- context [_detect_cic ?b ?s] =>
        let H := fresh in
        destruct (detect_cic_run b s) as (? & H); rewrite (H s eq_refl) end
    | match goal with |- context [_detect_save_type ?s] =>
        let H := fresh in
        destruct (detect_save_type_run s) as (? & H);
        rewrite (H s eq_refl eq_refl eq_refl) end ];
  run.

(** [_parse_header] returns exactly on headers of at least 64 bytes. On
    fewer than 0x18 bytes one of the three [struct.unpack] calls raises
    [struct.error]; from 0x18 to 63 bytes one of the three byte indexings
    raises [IndexError]. *)
Theorem parse_header_outcome
    (header bootcode : bytes) (self : N64RomInfo) :
  ((64 ≤ length header)%nat →
     (_parse_header header bootcode self).2 = inr tt) ∧
  ((length header < 0x18)%nat →
     (_parse_header header bootcode self).2 = inl StructError) ∧
  ((0x18 ≤ length header < 64)%nat →
     (_parse_header header bootcode self).2 = inl IndexError).
Proof.
  unfold _parse_header. run. split; [|split]; intros Hlen.
  - by repeat header_step.
  - destruct (decide (length header < 0x0C)%nat);
      [|destruct (decide (length header < 0x14)%nat)];
      by repeat header_step.
  - destruct (decide (length header ≤ 0x3B)%nat);
      [|destruct (decide (length header ≤ 0x3E)%nat)];
      by repeat header_step.
Qed.

Lemma parse_header_outcome_witness :
  (_parse_header (replicate 64 x00) [] (N64RomInfo_defaults "a.z64")).2
    = inr tt ∧
  (_parse_header (replicate 23 x00) [] (N64RomInfo_defaults "a.z64")).2
    = inl StructError ∧
  (_parse_header (replicate 63 x00) [] (N64RomInfo_defaults "a.z64")).2
    = inl IndexError.
Proof.
  split; [|split].
  - apply parse_header_outcome. rewrite length_replicate. lia.
  - apply parse_header_outcome. rewrite length_replicate. lia.
  - apply parse_header_outcome. rewrite length_replicate. lia.
Defined.

(** ** The attributes [_parse_header] leaves *)

Lemma int_from_bytes_big_bound (data : bytes) :
  0 ≤ int_from_bytes_big data < 256 ^ Z.of_nat (length data).
Proof.
  unfold int_from_bytes_big.
  cut (∀ acc n, 0 ≤ acc < 256 ^ n → 0 ≤ n →
         0 ≤ foldl (λ acc b, acc * 256 + byte_val b) acc data
           < 256 ^ (n + Z.of_nat (length data))).
  { intros H. apply (H 0 0); lia. }
  induction data as [|b data IH]; intros acc n Hacc Hn; cbn [foldl length].
  - by rewrite Z.add_0_r.
  - replace (n + Z.of_nat (S (length data)))
      with ((n + 1) + Z.of_nat (length data)) by lia.
    apply IH; [|lia]. pose proof (byte_val_range b).
    rewrite Z.pow_add_r, Z.pow_1_r by lia. nia.
Qed.

(** The code points [bytes.decode("ascii", errors="replace")] produces:
    the ASCII range and the replacement character. *)
Lemma decode_range (data : bytes) :
  Forall (λ c, 0 ≤ c < 0x80 ∨ c = 0xFFFD) (decode_ascii_replace data).
Proof.
  unfold decode_ascii_replace. apply Forall_fmap, Forall_forall.
  intros b _. simpl. pose proof (byte_val_range b).
  destruct (byte_val b <? 0x80) eqn:E; [apply Z.ltb_lt in E; lia | by right].
Qed.

Lemma decode_ascii_replace_length (data : bytes) :
  length (decode_ascii_replace data) = length data.
Proof. unfold decode_ascii_replace. by rewrite length_fmap. Qed.









(** After [_parse_header] the entry point and the two CRCs are unsigned
    32-bit values, the country code and the version are byte values, the
    manufacturer is one character and the cartridge id two. *)
Theorem parse_header_field_ranges
    (header bootcode : bytes) (self : N64RomInfo) :
  length header = 64%nat →
  let self' := exec (_parse_header header bootcode) self in
  0 ≤ entry_point self' < 2 ^ 32 ∧
  0 ≤ crc1 self' < 2 ^ 32 ∧
  0 ≤ crc2 self' < 2 ^ 32 ∧
  0 ≤ country_code self' < 256 ∧
  0 ≤ rom_version self' < 256 ∧
  length (manufacturer self') = 1%nat ∧
  length (cartridge_id self') = 2%nat.
Proof.
  intros Hlen self'. subst self'. unfold exec.
  destruct (parse_header_run header bootcode self Hlen)
    as (self' & Hrun & He & Hc1 & Hc2 & _ & Hm & Hid & Hcc & Hv & _).
  rewrite Hrun. cbn [fst]. rewrite He, Hc1, Hc2, Hm, Hid, Hcc, Hv.
  clear Hrun He Hc1 Hc2 Hm Hid Hcc Hv.
  assert (Hword : ∀ lo, (lo + 4 ≤ 64)%nat →
            0 ≤ int_from_bytes_big (slice lo (lo + 4) header) < 2 ^ 32).
  { intros lo Hlo.
    pose proof (int_from_bytes_big_bound (slice lo (lo + 4) header)) as H.
    rewrite slice_length_min in H.
    replace ((lo + 4 - lo) `min` (length header - lo))%nat with 4%nat in H
      by lia.
    exact H. }
  repeat split; try apply (Hword 0x08%nat); try apply (Hword 0x10%nat);
    try apply (Hword 0x14%nat); try lia; try apply byte_val_range.
  - by destruct (byte_val (header !!! 59%nat) =? 0).
  - rewrite decode_ascii_replace_length, slice_length_min. lia.
Qed.

Lemma parse_header_field_ranges_witness :
  length (replicate 64 xff) = 64%nat ∧
  let self' := exec (_parse_header (replicate 64 xff) [])
                    (N64RomInfo_defaults "a.z64") in
  0 ≤ entry_point self' < 2 ^ 32 ∧
  0 ≤ crc1 self' < 2 ^ 32 ∧
  0 ≤ crc2 self' < 2 ^ 32 ∧
  0 ≤ country_code self' < 256 ∧
  0 ≤ rom_version self' < 256 ∧
  length (manufacturer self') = 1%nat ∧
  length (cartridge_id self') = 2%nat.
Proof.
  split; [reflexivity|].
  apply (parse_header_field_ranges (replicate 64 xff) []
           (N64RomInfo_defaults "a.z64")).
  reflexivity.
Defined.

(** ** The object [__init__] builds *)

(** The four results of the detection on at least four bytes. *)
Lemma detect_rom_format_cases (data : bytes) :
  (4 ≤ length data)%nat →
  detect_rom_format data = (Some (py "z64"), None) ∨
  detect_rom_format data = (Some (py "n64"), Some swap_bytes_n64) ∨
  detect_rom_format data = (Some (py "v64"), Some swap_bytes_v64) ∨
  detect_rom_format data = (Some (py "unknown"), None).
Proof.
  destruct data as [|b0 [|b1 [|b2 [|b3 rest]]]]; simpl; try lia. intros _.
  rewrite detect_rom_format_magic. cbv zeta beta iota.
  repeat case_match; auto.
Qed.

(** The chip [_detect_cic] assigns. *)
Lemma detect_cic_chip (bootcode : bytes) (self : N64RomInfo) :
  cic_chip (exec (_detect_cic bootcode) self)
  = if decide (length bootcode < 4032)%nat then py "Unknown"
    else if entry_point self =? 0x80000400 then py "CIC-6101"
    else if entry_point self =? 0x80000480 then py "CIC-6103"
    else if entry_point self =? 0x800004C0 then py "CIC-6106"
    else py "CIC-6102".
Proof.
  unfold exec, _detect_cic. destruct (decide _); [done|].
  cbv zeta. rewrite cic_table_match_bytes. run. by repeat case_match.
Qed.

Lemma save_type_scan_name (items : list (pystr * list pystr))
    (game_code cartridge_id t : pystr) :
  save_type_scan items game_code cartridge_id = Some t →
  t ∈ (λ b, replace_underscore b.1) <$> items.
Proof.
  induction items as [|[name codes] items IH]; simpl; [done|].
  destruct (_ || _).
  - intros [= <-]. apply elem_of_cons. by left.
  - intros H. apply elem_of_cons. right. by apply IH.
Qed.

(** The save type [_detect_save_type] assigns is a bucket name with its
    underscore replaced, or one of the three size fallbacks. *)
Lemma detect_save_type_name (self : N64RomInfo) :
  save_type (exec _detect_save_type self)
  ∈ py <$> ["EEPROM 4K"; "EEPROM 16K"; "SRAM 256K"; "FLASH 1M"; "CPAK";
            "FlashRAM"; "SRAM"; "EEPROM"].
Proof.
  unfold exec, _detect_save_type. run.
  destruct (save_type_scan _ _ _) as [t|] eqn:Hscan.
  - apply save_type_scan_name in Hscan. run.
    revert Hscan. generalize t. apply Forall_forall.
    apply (bool_decide_unpack _). vm_compute. reflexivity.
  - repeat case_match; run;
      (apply (bool_decide_unpack _); vm_compute; reflexivity).
Qed.

(** [_parse_country] with the timing it assigns. *)
Lemma parse_country_run_timing (self : N64RomInfo) :
  ∃ r c v h f,
    _parse_country self
    = (set_flag f (set_refresh_hz h (set_video_mode v
         (set_country c (set_region r self)))), inr tt) ∧
    ((v = py "NTSC" ∧ h = 60) ∨ (v = py "PAL" ∧ h = 50)).
Proof.
  unfold _parse_country. run.
  destruct (N64_COUNTRY_CODES !! country_code self) as [info|] eqn:Hlook.
  - do 5 eexists. split; [reflexivity|].
    exact (N64_COUNTRY_CODES_timing _ _ Hlook).
  - do 5 eexists. split; [reflexivity|]. by left.
Qed.

(** [_parse_header] leaves a consistent video timing. *)
Lemma parse_header_timing (header bootcode : bytes) (self : N64RomInfo) :
  length header = 64%nat →
  ∃ self', _parse_header header bootcode self = (self', inr tt) ∧
    ((video_mode self' = py "NTSC" ∧ refresh_hz self' = 60) ∨
     (video_mode self' = py "PAL" ∧ refresh_hz self' = 50)).
Proof.
  intros Hlen. unfold _parse_header. run.
  rewrite !struct_unpack_I_run by (rewrite slice_length; lia).
  rewrite !index_run by lia.
  match goal with |- context [_parse_country ?s] =>
    destruct (parse_country_run_timing s) as (r & c & v & h & f & -> & Ht) end.
  run. rewrite index_run by lia.
  match goal with |- context [_detect_cic bootcode ?s] =>
    destruct (detect_cic_run bootcode s) as (chip & Hcic);
    rewrite (Hcic s eq_refl) end.
  match goal with |- context [_detect_save_type ?s] =>
    destruct (detect_save_type_run s) as (t & Hsave);
    rewrite (Hsave s eq_refl eq_refl eq_refl) end.
  eexists. split; [reflexivity|]. exact Ht.
Qed.



Section InitProperties.

Variable md5_hexdigest : bytes → pystr.

(** The object after the part of the [try] block that follows the
    detection: the header is parsed; the digest and [valid] are set when
    the second read succeeds. *)
Lemma parse_detected_state (f : rom_file) (raw_header : bytes)
    (fmt : option pystr) (swap_func : option (bytes → bytes))
    (self : N64RomInfo) :
  let header := match swap_func with
                | Some swap => swap (slice 0 64 raw_header)
                | None => slice 0 64 raw_header
                end in
  let bootcode := match swap_func with
                  | Some swap => swap (slice 0x40 0x1000 raw_header)
                  | None => slice 0x40 0x1000 raw_header
                  end in
  length header = 64%nat →
  ∃ s1,
    _parse_header header bootcode (set_format fmt self) = (s1, inr tt) ∧
    (parse_detected md5_hexdigest f raw_header (fmt, swap_func) self).1
    = if digest_read_raises f then s1
      else set_valid true
             (set_md5
                (take 16 (md5_hexdigest
                   (take (Z.to_nat (Z.min (1024 * 1024) (size_bytes s1)))
                         (contents f))))
                s1).
Proof.
  intros header bootcode Hhdr. unfold parse_detected. subst header bootcode.
  run.
  destruct swap_func as [swap|];
    (match goal with |- context [_parse_header ?h ?b ?s] =>
       destruct (parse_header_run h b s Hhdr) as (s1 & Hrun & _) end;
     exists s1; split; [exact Hrun|]; rewrite Hrun;
     destruct (digest_read_raises f); run; reflexivity).
Qed.

(** The object [__init__] builds is one of: the defaults (no such file,
    or [stat] raises);
    the defaults with the sizes (the file cannot be opened or read, or has
    fewer than 64 bytes); the result of [_parse_header] on the canonical
    header (the digest read fails); that result with digest and [valid]
    set. *)
Lemma init_cases fs (rom_path : string) :
  let rom := (N64RomInfo_init md5_hexdigest fs rom_path).1 in
  match fs !! rom_path with
  | None => rom = N64RomInfo_defaults rom_path
  | Some f =>
      let sized :=
        set_size_mbits
          ((Z.of_N (st_size f) * 8) `div` (1024 * 1024))
          (set_size_bytes (Z.of_N (st_size f))
             (N64RomInfo_defaults rom_path)) in
      let raw_header := take 0x1000 (contents f) in
      if open_raises f || header_read_raises f
         || bool_decide (length (contents f) < 64)%nat
      then rom = sized
      else
        ∃ fmt swap_func header bootcode s1,
          detect_rom_format raw_header = (fmt, swap_func) ∧
          header = canonical_header raw_header ∧
          bootcode = canonical_bootcode raw_header ∧
          length header = 64%nat ∧
          _parse_header header bootcode (set_format fmt sized)
            = (s1, inr tt) ∧
          rom = if digest_read_raises f then s1
                else set_valid true
                       (set_md5
                          (take 16 (md5_hexdigest
                             (take (Z.to_nat (Z.min (1024 * 1024)
                                                    (size_bytes s1)))
                                   (contents f))))
                          s1)
  end.
Proof.
  intros rom. subst rom. unfold N64RomInfo_init.
  destruct (fs !! rom_path) as [f|] eqn:Hfs;
    [|by apply parse_run_missing].
  cbv zeta. rewrite (parse_run_file md5_hexdigest fs f) by exact Hfs.
  destruct (open_raises f) eqn:Hopen;
    [by apply parse_try_unreadable; auto|].
  destruct (header_read_raises f) eqn:Hread;
    [by apply parse_try_unreadable; auto|].
  cbn [orb]. destruct (bool_decide_reflect (length (contents f) < 64)%nat)
    as [Hlt|Hge]; [by apply parse_try_unreadable; auto|].
  rewrite parse_try_detected, Hopen, Hread.
  set (raw_header := take 0x1000 (contents f)).
  assert (Hraw64 : (64 ≤ length raw_header)%nat)
    by (subst raw_header; rewrite length_take; lia).
  clearbody raw_header.
  destruct (detect_rom_format raw_header) as [fmt swap_func] eqn:Hdet.
  run. rewrite decide_False by lia. rewrite Hdet.
  assert (Hcanon : canonical_header raw_header
                   = match swap_func with
                     | Some swap => swap (slice 0 64 raw_header)
                     | None => slice 0 64 raw_header
                     end)
    by (unfold canonical_header; by rewrite Hdet).
  pose proof (canonical_header_length raw_header Hraw64) as Hhdr.
  rewrite Hcanon in Hhdr.
  match goal with |- context [parse_detected _ _ _ _ ?s] =>
    destruct (parse_detected_state f raw_header fmt swap_func s Hhdr)
      as (s1 & Hrun & Hrom) end.
  assert (Hboot : canonical_bootcode raw_header
                  = match swap_func with
                    | Some swap => swap (slice 0x40 0x1000 raw_header)
                    | None => slice 0x40 0x1000 raw_header
                    end)
    by (unfold canonical_bootcode; by rewrite Hdet).
  eexists fmt, swap_func, _, _, s1.
  split; [reflexivity|]. split; [reflexivity|]. split; [reflexivity|].
  rewrite Hcanon, Hboot. split; [exact Hhdr|]. split; [exact Hrun|]. exact Hrom.
Qed.

(** Case analysis on the object [__init__] builds for [rom_path]. *)
Ltac split_init fs rom_path :=
  let H := fresh "Hinit" in
  pose proof (init_cases fs rom_path) as H; cbv zeta in H;
  let f := fresh "f" in
  let Hfs := fresh "Hfs" in
  let Hpre := fresh "Hpre" in
  destruct (fs !! rom_path) as [f|] eqn:Hfs;
    [ destruct (open_raises f || header_read_raises f
                || bool_decide (length (contents f) < 64)%nat) eqn:Hpre;
      [| destruct H as (fmt & swap_func & header & bootcode & s1 & Hdet
                        & Hheader & Hboot & Hlen & Hrun & Hrom) ]
    | ].

(** Whatever the path and the file system, video standard and refresh
    rate of the object agree. *)
Lemma init_timing fs (rom_path : string) :
  let rom := (N64RomInfo_init md5_hexdigest fs rom_path).1 in
  (video_mode rom = py "NTSC" ∧ refresh_hz rom = 60) ∨
  (video_mode rom = py "PAL" ∧ refresh_hz rom = 50).
Proof.
  intros rom. subst rom. split_init fs rom_path.
  - rewrite Hinit. by left.
  - match type of Hrun with _parse_header _ _ ?s = _ =>
      destruct (parse_header_timing header bootcode s Hlen)
        as (s1' & Hrun' & Ht) end.
    rewrite Hrun in Hrun'. injection Hrun' as <-.
    rewrite Hrom. by destruct (digest_read_raises f).
  - rewrite Hinit. by left.
Qed.

(** The renderer settings follow the ROM. Without a [config_dir]
    [setup_renderer_config] writes nothing; when [mkdir] raises, the
    exception reaches the caller and nothing is selected; when
    [write_text] raises, the selection is lost without an exception.
    Otherwise, for every object [__init__] builds, the options file
    carries "pal" and "50" when the ROM is PAL at 50 Hz and "ntsc" and
    "60" when it is NTSC at 60 Hz, there is no other case, and
    [get_video_info] is "PAL 50Hz" or "NTSC 60Hz" accordingly. *)
Theorem init_renderer_video_settings fs (rom_path : string)
    (env : renderer_env) (dir : string) :
  let rom := (N64RomInfo_init md5_hexdigest fs rom_path).1 in
  setup_renderer_config env None (Some rom) = inr None ∧
  (mkdir_raises env = true →
     setup_renderer_config env (Some dir) (Some rom) = inl OSError) ∧
  (mkdir_raises env = false → write_text_raises env = true →
     setup_renderer_config env (Some dir) (Some rom) = inr None) ∧
  (mkdir_raises env = false → write_text_raises env = false →
     (video_mode rom = py "PAL" ∧ refresh_hz rom = 50 ∧
      setup_renderer_config env (Some dir) (Some rom)
      = inr (Some (dir, core_opts (use_rosetta env) (py "pal") (py "50"))) ∧
      get_video_info rom = py "PAL 50Hz") ∨
     (video_mode rom = py "NTSC" ∧ refresh_hz rom = 60 ∧
      setup_renderer_config env (Some dir) (Some rom)
      = inr (Some (dir, core_opts (use_rosetta env) (py "ntsc") (py "60"))) ∧
      get_video_info rom = py "NTSC 60Hz")).
Proof.
  intros rom. pose proof (init_timing fs rom_path) as Ht.
  fold rom in Ht. clearbody rom. unfold setup_renderer_config.
  split; [done|]. split; [by intros ->|].
  split; [intros -> ->; by destruct (bool_decide _)|].
  intros -> ->. unfold get_video_info.
  destruct Ht as [[Hv Hh]|[Hv Hh]]; rewrite Hv, Hh; [right|left];
    by repeat split.
Qed.

(** The digest covers what the second read returns: a valid object
    carries the first 16 characters of the MD5 of the first
    min(1024 * 1024, st_size) bytes of the file, where st_size is the
    size [stat] reported, and an object that is not valid carries the
    empty string. For a regular file, whose size is its length, these are
    its first 1024 * 1024 bytes; when [stat] reports 0, as for a device,
    the digest is that of the empty input, whatever was read. *)
Theorem init_md5_first_mebibyte fs (rom_path : string) (f : rom_file) :
  fs !! rom_path = Some f →
  let rom := (N64RomInfo_init md5_hexdigest fs rom_path).1 in
  md5 rom
  = (if valid rom
     then take 16 (md5_hexdigest
                     (take (Z.to_nat (Z.min (1024 * 1024)
                                            (Z.of_N (st_size f))))
                           (contents f)))
     else []) ∧
  (valid rom = true → st_size f = N.of_nat (length (contents f)) →
     md5 rom = take 16 (md5_hexdigest
                          (take (Z.to_nat (1024 * 1024)) (contents f)))) ∧
  (valid rom = true → st_size f = 0%N →
     md5 rom = take 16 (md5_hexdigest [])).
Proof.
  intros Hf rom.
  assert (Hmd5 : md5 rom
            = if valid rom
              then take 16 (md5_hexdigest
                              (take (Z.to_nat (Z.min (1024 * 1024)
                                                     (Z.of_N (st_size f))))
                                    (contents f)))
              else []).
  { subst rom. split_init fs rom_path; [..|done].
    - injection Hf as <-. by rewrite Hinit.
    - injection Hf as <-.
      match type of Hrun with _parse_header _ _ ?s = _ =>
        destruct (parse_header_run header bootcode s Hlen)
          as (s1' & Hrun' & _ & _ & _ & _ & _ & _ & _ & _ & _ & _ & Hframe)
      end.
      rewrite Hrun in Hrun'. injection Hrun' as <-.
      injection Hframe as _ _ Hsize _ Hmd5 Hvalid.
      rewrite Hrom. destruct (digest_read_raises f0).
      + by rewrite Hvalid, Hmd5.
      + cbn [md5 valid set_md5 set_valid]. by rewrite Hsize. }
  clearbody rom. split; [exact Hmd5|]. split.
  - intros Hvalid Hsize. rewrite Hmd5, Hvalid, Hsize. do 2 f_equal.
    destruct (decide (1024 * 1024 ≤ Z.of_nat (length (contents f)))).
    + by rewrite Z.min_l by lia.
    + rewrite Z.min_r by lia. rewrite !take_ge by lia. done.
  - intros Hvalid Hsize. by rewrite Hmd5, Hvalid, Hsize.
Qed.

(** The CIC chip of every object [__init__] builds is "Unknown" or one of
    the four entry-point answers, never another name of [CIC_CHIPS]. It
    is "Unknown" for a file of fewer than 4096 bytes, which leaves fewer
    than 4032 bytes of boot code; for a file of at least 4096 bytes whose
    header is read, the entry point alone decides. *)
Theorem init_cic_chip fs (rom_path : string) :
  let rom := (N64RomInfo_init md5_hexdigest fs rom_path).1 in
  let by_entry_point :=
    if entry_point rom =? 0x80000400 then py "CIC-6101"
    else if entry_point rom =? 0x80000480 then py "CIC-6103"
    else if entry_point rom =? 0x800004C0 then py "CIC-6106"
    else py "CIC-6102" in
  cic_chip rom ∈ py <$> ["Unknown"; "CIC-6101"; "CIC-6102"; "CIC-6103";
                         "CIC-6106"] ∧
  (∀ f, fs !! rom_path = Some f → (length (contents f) < 4096)%nat →
     cic_chip rom = py "Unknown") ∧
  (∀ f, fs !! rom_path = Some f →
     open_raises f = false → header_read_raises f = false →
     (4096 ≤ length (contents f))%nat →
     cic_chip rom = by_entry_point).
Proof.
  intros rom by_entry_point. subst rom by_entry_point.
  split_init fs rom_path.
  - rewrite Hinit. split; [|split].
    + apply (bool_decide_unpack _). vm_compute. reflexivity.
    + done.
    + intros f' [= <-] Hopen Hread Hlen. rewrite Hopen, Hread in Hpre.
      cbn [orb] in Hpre. apply bool_decide_eq_true in Hpre. lia.
  - match type of Hrun with _parse_header _ _ ?s = _ =>
      destruct (parse_header_run header bootcode s Hlen)
        as (s1' & Hrun' & _ & _ & _ & _ & _ & _ & _ & _ & _ & Hcic & _)
    end.
    rewrite Hrun in Hrun'. injection Hrun' as <-.
    rewrite detect_cic_chip in Hcic.
    assert (Hboot_len : length bootcode
              = ((0x1000 `min` length (contents f)) - 0x40)%nat).
    { rewrite Hboot. unfold canonical_bootcode.
      destruct (detect_rom_format_swap (take 0x1000 (contents f)))
        as [H | [H | H]]; rewrite H;
        rewrite ?swap_bytes_n64_length, ?swap_bytes_v64_length,
          slice_length_min, length_take; lia. }
    assert (Hrom' : cic_chip (N64RomInfo_init md5_hexdigest fs rom_path).1
                    = cic_chip s1 ∧
                    entry_point (N64RomInfo_init md5_hexdigest fs rom_path).1
                    = entry_point s1)
      by (rewrite Hrom; by destruct (digest_read_raises f)).
    destruct Hrom' as [-> ->]. rewrite Hcic.
    clear Hrun Hrom Hdet Hboot Hheader Hlen Hpre Hcic.
    generalize dependent (entry_point s1). intros entry.
    split; [|split].
    + destruct (decide _);
        [|destruct (entry =? 0x80000400);
          [|destruct (entry =? 0x80000480);
            [|destruct (entry =? 0x800004C0)]]];
        (apply (bool_decide_unpack _); vm_compute; reflexivity).
    + intros f' [= <-] Hshort. rewrite decide_True by lia. done.
    + intros f' [= <-] _ _ Hlong. rewrite decide_False by lia. done.
  - rewrite Hinit. split; [|split]; [|done..].
    apply (bool_decide_unpack _). vm_compute. reflexivity.
Qed.

(** The save type of every object [__init__] builds is the default
    "Unknown", a bucket name of [SAVE_TYPES] with its underscore replaced
    by a space, or one of the three size fallbacks. *)
Theorem init_save_type_name fs (rom_path : string) :
  let rom := (N64RomInfo_init md5_hexdigest fs rom_path).1 in
  save_type rom
  ∈ py <$> ["Unknown"; "EEPROM 4K"; "EEPROM 16K"; "SRAM 256K"; "FLASH 1M";
            "CPAK"; "FlashRAM"; "SRAM"; "EEPROM"].
Proof.
  intros rom. subst rom. split_init fs rom_path.
  - rewrite Hinit. apply elem_of_cons. by left.
  - match type of Hrun with _parse_header _ _ ?s = _ =>
      destruct (parse_header_run header bootcode s Hlen)
        as (s1' & Hrun' & _ & _ & _ & _ & _ & _ & _ & _ & Hsave & _)
    end.
    rewrite Hrun in Hrun'. injection Hrun' as <-.
    assert (Hrom' : save_type (N64RomInfo_init md5_hexdigest fs rom_path).1
                    = save_type s1)
      by (rewrite Hrom; by destruct (digest_read_raises f)).
    rewrite Hrom', Hsave. apply elem_of_cons. right.
    apply detect_save_type_name.
  - rewrite Hinit. apply elem_of_cons. by left.
Qed.

(** The format of every object [__init__] builds is one of the strings
    "unknown", "z64", "n64" and "v64", never [None]: the detection only
    runs on at least 64 bytes. When the header was read, it is what
    [detect_rom_format] finds for the contents of the file. *)
Theorem init_format fs (rom_path : string) :
  let rom := (N64RomInfo_init md5_hexdigest fs rom_path).1 in
  format rom ∈ Some ∘ py <$> ["unknown"; "z64"; "n64"; "v64"] ∧
  (∀ f, fs !! rom_path = Some f →
     open_raises f = false → header_read_raises f = false →
     (64 ≤ length (contents f))%nat →
     format rom = (detect_rom_format (contents f)).1).
Proof.
  intros rom. subst rom. split_init fs rom_path.
  - rewrite Hinit. split; [apply elem_of_cons; by left|].
    intros f' [= <-] Hopen Hread Hlen. rewrite Hopen, Hread in Hpre.
    cbn [orb] in Hpre. apply bool_decide_eq_true in Hpre. lia.
  - match type of Hrun with _parse_header _ _ ?s = _ =>
      destruct (parse_header_run header bootcode s Hlen)
        as (s1' & Hrun' & _ & _ & _ & _ & _ & _ & _ & _ & _ & _ & Hframe)
    end.
    rewrite Hrun in Hrun'. injection Hrun' as <-.
    injection Hframe as _ Hfmt _ _ _ _. cbn [format set_format] in Hfmt.
    assert (Hrom' : format (N64RomInfo_init md5_hexdigest fs rom_path).1
                    = format s1)
      by (rewrite Hrom; by destruct (digest_read_raises f)).
    rewrite Hrom', Hfmt.
    assert (Hraw : (4 ≤ length (take 0x1000 (contents f)))%nat).
    { rewrite length_take. cbn [orb] in Hpre.
      apply orb_false_iff in Hpre as [_ Hpre].
      apply bool_decide_eq_false in Hpre. lia. }
    split.
    + destruct (detect_rom_format_cases _ Hraw) as [H|[H|[H|H]]];
        rewrite H in Hdet; injection Hdet as <- _;
        (apply (bool_decide_unpack _); vm_compute; reflexivity).
    + intros f' [= <-] _ _ _.
      rewrite (detect_rom_format_take 0x1000) in Hdet by lia.
      by rewrite Hdet.
  - rewrite Hinit. split; [apply elem_of_cons; by left|done].
Qed.

(** Files that yield no header. For a path that does not exist, and
    for one on which [stat] raises, the object keeps every default. For a
    file that cannot be opened, whose first read raises or returns fewer
    than 64 bytes, the two sizes are recorded and every other attribute
    keeps its default. Whenever [stat] finds a file, the path is kept,
    [size_bytes] is the size [stat] reported, which need not be the
    number of bytes read, and [size_mbits] follows from it, whatever
    happens later in the parse. *)
Theorem init_without_header fs (rom_path : string) :
  let rom := (N64RomInfo_init md5_hexdigest fs rom_path).1 in
  (fs !! rom_path = None → rom = N64RomInfo_defaults rom_path) ∧
  (∀ f, fs !! rom_path = Some f →
     open_raises f = true ∨ header_read_raises f = true ∨
       (length (contents f) < 64)%nat →
     rom = set_size_mbits
             ((Z.of_N (st_size f) * 8) `div` (1024 * 1024))
             (set_size_bytes (Z.of_N (st_size f))
                (N64RomInfo_defaults rom_path))) ∧
  (∀ f, fs !! rom_path = Some f →
     path rom = rom_path ∧
     size_bytes rom = Z.of_N (st_size f) ∧
     size_mbits rom = (size_bytes rom * 8) `div` (1024 * 1024)).
Proof.
  intros rom. subst rom. split_init fs rom_path.
  - rewrite Hinit. split; [done|]. split; by intros f' [= <-].
  - split; [done|]. split.
    + intros f' [= <-] Hno.
      apply orb_false_iff in Hpre as [Hpre Hlong].
      apply orb_false_iff in Hpre as [Hopen Hread].
      apply bool_decide_eq_false in Hlong.
      destruct Hno as [?|[?|?]]; [congruence..|lia].
    + intros f' [= <-].
      match type of Hrun with _parse_header _ _ ?s = _ =>
        destruct (parse_header_run header bootcode s Hlen)
          as (s1' & Hrun' & _ & _ & _ & _ & _ & _ & _ & _ & _ & _ & Hframe)
      end.
      rewrite Hrun in Hrun'. injection Hrun' as <-.
      injection Hframe as Hpath _ Hsize Hmbits _ _.
      rewrite Hrom.
      destruct (digest_read_raises f);
        cbn [path size_bytes size_mbits set_valid set_md5];
        rewrite Hpath, Hsize, Hmbits; done.
  - split; [by rewrite Hinit|]. split; by intros f' [=].
Qed.


End InitProperties.

Lemma init_md5_first_mebibyte_witness :
  let data := z64_magic ++ replicate 60 x00 in
  let device := RomFile data 0 false false false in
  let fs : gmap string rom_file :=
    {[ "rom.z64" := readable data; "zero" := device ]} in
  let digest (data : bytes) : pystr := [Z.of_nat (length data)] in
  md5 (N64RomInfo_init digest fs "rom.z64").1
    = take 16 (digest (take (Z.to_nat (1024 * 1024)) data)) ∧
  md5 (N64RomInfo_init digest fs "zero").1 = take 16 (digest []).
Proof.
  intros data device fs digest.
  pose proof (init_md5_first_mebibyte digest fs "rom.z64" (readable data)
                eq_refl) as (_ & Hregular & _).
  pose proof (init_md5_first_mebibyte digest fs "zero" device eq_refl)
    as (_ & _ & Hdevice).
  split.
  - apply Hregular; [vm_compute|]; reflexivity.
  - apply Hdevice; [vm_compute|]; reflexivity.
Defined.

Lemma init_cic_chip_witness :
  let short := z64_magic ++ replicate 60 x00 in
  let long := z64_magic ++ replicate 4092 x00 in
  let fs : gmap string rom_file :=
    {[ "short.z64" := readable short; "long.z64" := readable long ]} in
  let parse p := (N64RomInfo_init (λ _, []) fs p).1 in
  cic_chip (parse "short.z64") = py "Unknown" ∧
  cic_chip (parse "long.z64")
  = (if entry_point (parse "long.z64") =? 0x80000400 then py "CIC-6101"
     else if entry_point (parse "long.z64") =? 0x80000480 then py "CIC-6103"
     else if entry_point (parse "long.z64") =? 0x800004C0 then py "CIC-6106"
     else py "CIC-6102").
Proof.
  intros short long fs parse.
  pose proof (init_cic_chip (λ _, []) fs "short.z64") as (_ & Hshort & _).
  pose proof (init_cic_chip (λ _, []) fs "long.z64") as (_ & _ & Hlong).
  split.
  - apply (Hshort (readable short)); [reflexivity|].
    unfold short, readable, z64_magic. cbn [contents].
    rewrite length_app, length_replicate. cbn [length]. lia.
  - apply (Hlong (readable long)); [reflexivity..|].
    unfold long, readable, z64_magic. cbn [contents].
    rewrite length_app, length_replicate. cbn [length]. lia.
Defined.

Lemma init_format_witness :
  let data := [x37; x80; x40; x12] ++ replicate 60 x00 in
  let fs : gmap string rom_file := {[ "rom.v64" := readable data ]} in
  format (N64RomInfo_init (λ _, []) fs "rom.v64").1
  = (detect_rom_format data).1.
Proof.
  intros data fs.
  pose proof (init_format (λ _, []) fs "rom.v64") as (_ & Hfmt).
  apply (Hfmt (readable data)); [reflexivity..|].
  unfold data, readable. cbn [contents].
  rewrite length_app, length_replicate. cbn [length]. lia.
Defined.

Lemma init_without_header_witness :
  let locked := RomFile (replicate 100 x00) 100 true false false in
  let fs := FileSystem {[ "locked.z64" := locked ]} {[ "far/rom.z64" ]} in
  let parse p := (N64RomInfo_init (λ _, []) fs p).1 in
  parse "missing.z64" = N64RomInfo_defaults "missing.z64" ∧
  parse "far/rom.z64" = N64RomInfo_defaults "far/rom.z64" ∧
  parse "locked.z64"
  = set_size_mbits ((Z.of_N (st_size locked) * 8) `div` (1024 * 1024))
      (set_size_bytes (Z.of_N (st_size locked))
         (N64RomInfo_defaults "locked.z64")).
Proof.
  intros locked fs parse.
  pose proof (init_without_header (λ _, []) fs "missing.z64") as (Hm & _).
  pose proof (init_without_header (λ _, []) fs "far/rom.z64") as (Hf & _).
  pose proof (init_without_header (λ _, []) fs "locked.z64") as (_ & Hl & _).
  split; [|split].
  - apply Hm. reflexivity.
  - apply Hf. reflexivity.
  - apply (Hl locked); [reflexivity|]. left. reflexivity.
Defined.

Lemma init_renderer_video_settings_witness :
  let data := z64_magic ++ replicate 58 x00 ++ [x50; x00] in
  let fs : gmap string rom_file := {[ "pal.z64" := readable data ]} in
  let rom := (N64RomInfo_init (λ _, []) fs "pal.z64").1 in
  setup_renderer_config (RendererEnv false true false) (Some "cfg") (Some rom)
    = inl OSError ∧
  setup_renderer_config (RendererEnv false false true) (Some "cfg") (Some rom)
    = inr None ∧
  setup_renderer_config (RendererEnv true false false) (Some "cfg") (Some rom)
    = inr (Some ("cfg", core_opts true (py "pal") (py "50"))).
Proof.
  intros data fs rom.
  pose proof (init_renderer_video_settings (λ _, []) fs "pal.z64"
                (RendererEnv false true false) "cfg") as (_ & Hmkdir & _).
  pose proof (init_renderer_video_settings (λ _, []) fs "pal.z64"
                (RendererEnv false false true) "cfg") as (_ & _ & Hwrite & _).
  pose proof (init_renderer_video_settings (λ _, []) fs "pal.z64"
                (RendererEnv true false false) "cfg") as (_ & _ & _ & Hok).
  split; [by apply Hmkdir|]. split; [by apply Hwrite|].
  destruct (Hok eq_refl eq_refl) as [(_ & _ & Hpal & _)|(Hntsc & _)].
  - exact Hpal.
  - vm_compute in Hntsc. discriminate Hntsc.
Defined.


